(** * APK generator service (src/index.js): a shallow embedding

    The service has two Express routes.  [POST /generate-app] copies an
    Android template project into a fresh build directory, substitutes
    the request's text fields into three template files with
    [String.prototype.replace], places the optional uploads, runs Gradle
    and answers with a download link.  [GET /download/:buildId] serves
    the built APK and cleans up.

    The embedding comes first:
    - JavaScript strings and [String.prototype.replace] with a string
      pattern ([JsString]);
    - the functions of Node's [path] module the file calls ([Path]);
    - the file system the [fs-extra] calls act on ([Fs]);
    - the two handlers, line by line ([Server]);
    - one concrete installation with its template, requests and build
      tools ([Scenario]).
    The facts about strings, paths and disks follow, and then the
    properties of the service, C1 to C10. *)

From Stdlib Require Import Ascii String.
From stdpp Require Import base tactics option list strings gmap fin_maps.

(* ===================================================================== *)
(** ** JavaScript strings *)
(* ===================================================================== *)

Module JsString.

(** [s.startsWith(p)], the test [StringIndexOf] performs at each index. *)
Fixpoint startsWith (p s : string) : bool :=
  match p, s with
  | EmptyString, _ => true
  | String _ _, EmptyString => false
  | String a p', String b s' => if decide (a = b) then startsWith p' s' else false
  end.

(** [s.indexOf(pat)]: the least index at which [pat] occurs in [s]. *)
Fixpoint indexOf (pat s : string) : option nat :=
  if startsWith pat s then Some 0
  else match s with
       | EmptyString => None
       | String _ s' => S <$> indexOf pat s'
       end.

(** [s.substring(0, n)] and [s.substring(n)]. *)
Fixpoint take (n : nat) (s : string) : string :=
  match n, s with
  | S n', String c s' => String c (take n' s')
  | _, _ => EmptyString
  end.

Fixpoint drop (n : nat) (s : string) : string :=
  match n, s with
  | S n', String _ s' => drop n' s'
  | _, _ => s
  end.

(** [GetSubstitution(matched, str, position, captures = [], undefined,
    replacement)] of ECMA-262: with a string pattern there are no
    captures, so [$$], [$&], [$`] and [$'] are the only sequences that
    expand; [$1], [$<name>] and a lone [$] stay as they are. *)
Fixpoint expand (matched before after replacement : string) : string :=
  match replacement with
  | EmptyString => EmptyString
  | String c r =>
      if decide (c = "$"%char) then
        match r with
        | String d r' =>
            if decide (d = "$"%char) then String "$" (expand matched before after r')
            else if decide (d = "&"%char) then matched +:+ expand matched before after r'
            else if decide (d = "`"%char) then before +:+ expand matched before after r'
            else if decide (d = "'"%char) then after +:+ expand matched before after r'
            else String c (expand matched before after r)
        | EmptyString => String c EmptyString
        end
      else String c (expand matched before after r)
  end.

Definition getSubstitution (matched str : string) (position : nat)
    (replacement : string) : string :=
  expand matched (take position str)
         (drop (position + String.length matched) str) replacement.

(** [str.replace(searchString, replaceValue)] where both arguments are
    strings: find the first index of [searchString]; when there is none
    return [str]; otherwise splice the expanded replacement in. *)
Definition replace (searchString replaceValue str : string) : string :=
  match indexOf searchString str with
  | None => str
  | Some pos =>
      take pos str
      +:+ getSubstitution searchString str pos replaceValue
      +:+ drop (pos + String.length searchString) str
  end.

(** JavaScript truthiness of a value that is a string or [undefined]. *)
Definition truthy (v : option string) : bool :=
  match v with
  | Some (String _ _) => true
  | _ => false
  end.

(** [tok] occurs in [s] at offset [length pre]. *)
Definition occursAt (tok s pre post : string) : Prop :=
  s = pre +:+ tok +:+ post.

(** [tok] does not occur in [s]. *)
Definition absent (tok s : string) : Prop :=
  ∀ pre post, ¬ occursAt tok s pre post.

(** The occurrence of [tok] that starts after [pre] is the first one. *)
Definition firstAt (tok s pre post : string) : Prop :=
  occursAt tok s pre post ∧
  ∀ pre' post', occursAt tok s pre' post' → String.length pre ≤ String.length pre'.

(** No [$] in a replacement value. *)
Fixpoint dollarFree (s : string) : bool :=
  match s with
  | EmptyString => true
  | String c r => if decide (c = "$"%char) then false else dollarFree r
  end.

(** One call [replace tok v] took [s] to [s']: either [tok] does not
    occur in [s] and nothing changed, or the first occurrence of [tok]
    gave way to a text [x], what stands before and after that occurrence
    being kept as it was; [x] is the value [v] itself when [v] holds no
    [$].  (What a value with [$] turns into is left open here.) *)
Inductive ReplacedOnce (tok v : string) : string → string → Prop :=
  | replaced_absent s :
      absent tok s → ReplacedOnce tok v s s
  | replaced_first s pre post x :
      firstAt tok s pre post →
      (dollarFree v = true → x = v) →
      ReplacedOnce tok v s (pre +:+ x +:+ post).

End JsString.

(* ===================================================================== *)
(** ** Node's [path] module (POSIX flavour) *)
(* ===================================================================== *)

Module Path.

Definition slash : ascii := "/"%char.
Definition dot : ascii := "."%char.

(** [s.split('/')]. *)
Fixpoint splitSlash (s : string) : list string :=
  match s with
  | EmptyString => [EmptyString]
  | String c s' =>
      if decide (c = slash) then EmptyString :: splitSlash s'
      else match splitSlash s' with
           | x :: xs => String c x :: xs
           | [] => [String c EmptyString]
           end
  end.

(** [segs.join('/')]. *)
Fixpoint joinSlash (segs : list string) : string :=
  match segs with
  | [] => EmptyString
  | [x] => x
  | x :: xs => x +:+ String slash (joinSlash xs)
  end.

(** One round of the loop of [normalizeString]: [res] holds the segments
    kept so far, last one first.  Empty segments and [.] are skipped;
    [..] drops the last kept segment unless there is none or it is
    itself [..], in which case it is kept only when the path is
    relative ([allowAboveRoot]). *)
Definition normalizeStep (allowAboveRoot : bool) (res : list string)
    (seg : string) : list string :=
  if decide (seg = EmptyString) then res
  else if decide (seg = ".") then res
  else if decide (seg = "..") then
    match res with
    | top :: rest =>
        if decide (top = "..") then (if allowAboveRoot then seg :: res else res)
        else rest
    | [] => if allowAboveRoot then [seg] else []
    end
  else seg :: res.

Definition normalizeSegs (allowAboveRoot : bool) (segs : list string) : list string :=
  rev (fold_left (normalizeStep allowAboveRoot) segs []).

Definition normalizeString (path : string) (allowAboveRoot : bool) : string :=
  joinSlash (normalizeSegs allowAboveRoot (splitSlash path)).

Definition isAbsolute (path : string) : bool :=
  match path with
  | String c _ => bool_decide (c = slash)
  | EmptyString => false
  end.

Fixpoint endsWithSlash (path : string) : bool :=
  match path with
  | EmptyString => false
  | String c EmptyString => bool_decide (c = slash)
  | String _ r => endsWithSlash r
  end.

(** [path.normalize]. *)
Definition normalize (path : string) : string :=
  match path with
  | EmptyString => "."
  | _ =>
      let abs := isAbsolute path in
      let trailingSeparator := endsWithSlash path in
      let p := normalizeString path (negb abs) in
      match p with
      | EmptyString =>
          if abs then "/" else if trailingSeparator then "./" else "."
      | _ =>
          let p' := if trailingSeparator then p +:+ "/" else p in
          if abs then String slash p' else p'
      end
  end.

(** [path.join(...args)]: the non-empty arguments joined by [/], then
    normalized; [.] when nothing is left. *)
Definition join (args : list string) : string :=
  match filter (λ a, a ≠ EmptyString) args with
  | [] => "."
  | parts => normalize (joinSlash parts)
  end.

(** The loop of [path.dirname]: from the last index down to index 1,
    skip trailing separators and stop at the first separator that
    follows a non-separator. *)
Fixpoint dirnameScan (path : string) (i : nat) (matchedSlash : bool) : option nat :=
  match i with
  | 0 => None
  | S i' =>
      match String.get i path with
      | Some c =>
          if decide (c = slash) then
            (if matchedSlash then dirnameScan path i' matchedSlash else Some i)
          else dirnameScan path i' false
      | None => None
      end
  end.

(** [path.dirname]. *)
Definition dirname (path : string) : string :=
  match path with
  | EmptyString => "."
  | _ =>
      let hasRoot := isAbsolute path in
      match dirnameScan path (String.length path - 1) true with
      | None => if hasRoot then "/" else "."
      | Some e =>
          if hasRoot && bool_decide (e = 1) then "//" else JsString.take e path
      end
  end.

(** The state of the loop of [path.extname]; [-1] is the "not seen yet"
    mark of the source. *)
Record ExtState := mkExtState {
  startDot : Z;
  startPart : Z;
  extEnd : Z;
  extMatchedSlash : bool;
  preDotState : Z
}.

Definition extInit : ExtState :=
  {| startDot := -1; startPart := 0; extEnd := -1;
     extMatchedSlash := true; preDotState := 0 |}.

(** The loop of [path.extname], run for the indices [n-1] down to [0]. *)
Fixpoint extnameScan (path : string) (n : nat) (st : ExtState) : ExtState :=
  match n with
  | 0 => st
  | S i =>
      match String.get i path with
      | None => st
      | Some code =>
          if decide (code = slash) then
            if extMatchedSlash st then extnameScan path i st
            else {| startDot := startDot st; startPart := Z.of_nat i + 1;
                    extEnd := extEnd st; extMatchedSlash := extMatchedSlash st;
                    preDotState := preDotState st |}
          else
            let st1 :=
              if decide (extEnd st = -1)%Z then
                {| startDot := startDot st; startPart := startPart st;
                   extEnd := Z.of_nat i + 1; extMatchedSlash := false;
                   preDotState := preDotState st |}
              else st in
            let st2 :=
              if decide (code = dot) then
                if decide (startDot st1 = -1)%Z then
                  {| startDot := Z.of_nat i; startPart := startPart st1;
                     extEnd := extEnd st1; extMatchedSlash := extMatchedSlash st1;
                     preDotState := preDotState st1 |}
                else if decide (preDotState st1 ≠ 1)%Z then
                  {| startDot := startDot st1; startPart := startPart st1;
                     extEnd := extEnd st1; extMatchedSlash := extMatchedSlash st1;
                     preDotState := 1 |}
                else st1
              else if decide (startDot st1 ≠ -1)%Z then
                {| startDot := startDot st1; startPart := startPart st1;
                   extEnd := extEnd st1; extMatchedSlash := extMatchedSlash st1;
                   preDotState := -1 |}
              else st1 in
            extnameScan path i st2
      end
  end.

(** [path.extname]. *)
Definition extname (path : string) : string :=
  let st := extnameScan path (String.length path) extInit in
  if bool_decide (startDot st = -1)%Z
     || bool_decide (extEnd st = -1)%Z
     || bool_decide (preDotState st = 0)%Z
     || (bool_decide (preDotState st = 1)%Z
         && bool_decide (startDot st = extEnd st - 1)%Z
         && bool_decide (startDot st = startPart st + 1)%Z)
  then EmptyString
  else JsString.take (Z.to_nat (extEnd st - startDot st))
                     (JsString.drop (Z.to_nat (startDot st)) path).

(** A path without its trailing separator, the way the system calls
    read it. *)
Definition trimSlash (path : string) : string :=
  if endsWithSlash path then JsString.take (String.length path - 1) path
  else path.


(** A segment without separator. *)
Fixpoint slashFree (s : string) : bool :=
  match s with
  | EmptyString => true
  | String c r => if decide (c = slash) then false else slashFree r
  end.

(** A segment that [normalizeString] keeps: not empty, not [.], not
    [..]. *)
Definition properSeg (s : string) : bool :=
  bool_decide (s ≠ EmptyString) && bool_decide (s ≠ ".") && bool_decide (s ≠ "..").

(** A directory name: a proper segment without separator. *)
Definition nameSeg (s : string) : bool := properSeg s && slashFree s.

(** The absolute path made of the directory names [segs]. *)
Definition absolute (segs : list string) : string :=
  String slash (joinSlash segs).

(** The directory names of the parent of [absolute segs]. *)
Definition parentSegs (segs : list string) : list string := rev (tail (rev segs)).

(** [p] is [d] itself or lies below the directory [d]. *)
Definition under (d p : string) : bool :=
  bool_decide (p = d) || JsString.startsWith (d +:+ "/") p.

End Path.

(* ===================================================================== *)
(** ** The file system behind [fs-extra] *)
(* ===================================================================== *)

Module Fs.

(** What a path names: a directory or a regular file with its content. *)
Inductive Node : Type :=
  | Dir
  | File (content : string).

Global Instance Node_eq_dec : EqDecision Node.
Proof. solve_decision. Defined.

(** The disk: the paths that exist, each with what it names.  Every
    path the service touches comes out of [path.join] or [path.dirname],
    so a path string identifies its node. *)
Abbreviation FS := (gmap string Node).

(** The result of a call that may throw. *)
Inductive Result (A : Type) : Type :=
  | Ok (a : A)
  | Throw (e : string).
Global Arguments Ok {A} a.
Global Arguments Throw {A} e.

Global Instance Result_eq_dec {A} `{EqDecision A} : EqDecision (Result A).
Proof. solve_decision. Defined.

(** A call on the disk: it returns or throws, and leaves a disk behind
    in both cases. *)
Definition M (A : Type) : Type := FS → Result A * FS.

Global Instance M_ret : MRet M := λ A a fs, (Ok a, fs).
Global Instance M_bind : MBind M := λ A B f m fs,
  match m fs with
  | (Ok a, fs1) => f a fs1
  | (Throw e, fs1) => (Throw e, fs1)
  end.

Definition throw {A} (e : string) : M A := λ fs, (Throw e, fs).

(** A call made where no handler is in place: what it throws is marked
    as uncaught, so that it can be told from an error that is handed to
    a callback. *)
Definition uncaughtMark : string := "Uncaught ".

Definition uncaught {A} (m : M A) : M A := λ fs,
  match m fs with
  | (Throw e, fs1) => (Throw (uncaughtMark +:+ e), fs1)
  | r => r
  end.
Definition modify (f : FS → FS) : M unit := λ fs, (Ok (), f fs).

(** [fs.existsSync(p)]. *)
Definition existsSync (fs : FS) (p : string) : bool :=
  bool_decide (is_Some (fs !! p)).

Definition isFile (fs : FS) (p : string) : bool :=
  match fs !! p with
  | Some (File _) => true
  | _ => false
  end.

(** The root always exists. *)
Definition isDir (fs : FS) (p : string) : bool :=
  bool_decide (p = "/") || bool_decide (fs !! p = Some Dir).

(** The proper ancestors of [s] below the root, outermost first:
    the non-empty prefixes of [acc +:+ s] that end right before a [/]
    of [s]. *)
Fixpoint ancestorsFrom (acc s : string) : list string :=
  match s with
  | EmptyString => []
  | String c s' =>
      (if decide (c = Path.slash) then
         (if decide (acc = EmptyString) then [] else [acc])
       else [])
      ++ ancestorsFrom (acc +:+ String c EmptyString) s'
  end.

Definition ancestors (p : string) : list string := ancestorsFrom EmptyString p.

(** [fs.ensureDirSync(p)] ([mkdir -p]): creates [p] and its missing
    ancestors; throws when one of them is a regular file. *)
Definition mkdirs (p : string) : M unit := λ fs,
  let ps := ancestors p ++ [p] in
  if existsb (isFile fs) ps then (Throw "EEXIST", fs)
  else (Ok (), foldr (λ q m, <[q := Dir]> m) fs ps).

(** [fs.readFile(p, 'utf8')]. *)
Definition readFile (p : string) : M string := λ fs,
  match fs !! p with
  | Some (File c) => (Ok c, fs)
  | Some Dir => (Throw "EISDIR", fs)
  | None => (Throw "ENOENT", fs)
  end.

(** [fs.writeFile(p, data)]: the parent directory has to exist and [p]
    must not be a directory. *)
Definition writeFile (p data : string) : M unit := λ fs,
  match fs !! p with
  | Some Dir => (Throw "EISDIR", fs)
  | _ =>
      if isDir fs (Path.dirname p) then (Ok (), <[p := File data]> fs)
      else (Throw "ENOENT", fs)
  end.

(** The entries of the tree rooted at [src], re-rooted at [dest]. *)
Definition reroot (src dest k : string) : string :=
  dest +:+ JsString.drop (String.length src) k.

Definition subtree (src dest : string) (fs : FS) : list (string * Node) :=
  (λ kv, (reroot src dest kv.1, kv.2))
    <$> filter (λ kv, Path.under src kv.1 = true) (map_to_list fs).

(** A directory cannot replace a file, nor a file a directory. *)
Definition conflicts (fs : FS) (kv : string * Node) : bool :=
  match fs !! kv.1, kv.2 with
  | Some Dir, File _ => true
  | Some (File _), Dir => true
  | _, _ => false
  end.

(** [fs.copy(src, dest)] of fs-extra with its default options
    (overwrite).  A file is copied onto [dest], a directory is copied
    with everything below it; the parent of [dest] is created. *)
Definition copy (src dest : string) : M unit := λ fs,
  match fs !! src with
  | None => (Throw "ENOENT", fs)
  | Some (File c) =>
      match fs !! dest with
      | Some Dir => (Throw "Cannot overwrite directory with non-directory", fs)
      | _ => (_ ← mkdirs (Path.dirname dest); modify (insert dest (File c))) fs
      end
  | Some Dir =>
      if Path.under src dest
      then (Throw "Cannot copy a directory into itself", fs)
      else
        let entries := subtree src dest fs in
        if existsb (conflicts fs) entries
        then (Throw "Cannot overwrite", fs)
        else (_ ← mkdirs (Path.dirname dest);
              modify (λ fs1, list_to_map entries ∪ fs1)) fs
  end.

(** [fs.remove(p)] ([rm -rf]): [p] and everything below it. *)
Definition remove (p : string) (fs : FS) : FS :=
  filter (λ kv, Path.under p kv.1 = false) fs.

(** Run [f] on each element in turn, stopping at the first throw. *)
Fixpoint forEach {A} (f : A → M unit) (l : list A) : M unit :=
  match l with
  | [] => mret ()
  | x :: xs => _ ← f x; forEach f xs
  end.

(** An entry of an archive as [yauzl] reads it: its name inside the
    archive and what its mode says it is, a regular file with its bytes
    or a directory.  (An entry that is a symbolic link would put a link
    on the disk; the disk here has directories and regular files only,
    so archives with such entries are outside this model, as are
    archives with an entry whose data cannot be read.) *)
Inductive EntryData : Type :=
  | EntryFile (data : string)
  | EntryDir.

Record ZipEntry := mkZipEntry {
  fileName : string;
  entryData : EntryData
}.

Global Instance EntryData_eq_dec : EqDecision EntryData.
Proof. solve_decision. Defined.

Global Instance ZipEntry_eq_dec : EqDecision ZipEntry.
Proof. solve_decision. Defined.

Definition backslashChar : ascii := ascii_of_nat 92.
Definition backslash : string := String backslashChar EmptyString.

(** [fileName.replace(/\\/g, "/")]: [yauzl] reads a backslash in a name
    as a separator. *)
Fixpoint toSlashes (s : string) : string :=
  match s with
  | EmptyString => EmptyString
  | String c r =>
      String (if decide (c = backslashChar) then Path.slash else c) (toSlashes r)
  end.

(** [entry.fileName] as [extract-zip] sees it. *)
Definition entryName (e : ZipEntry) : string := toSlashes (fileName e).

(** [/^[a-zA-Z]:/]. *)
Definition isLetter (c : ascii) : bool :=
  let n := nat_of_ascii c in
  (65 <=? n) && (n <=? 90) || (97 <=? n) && (n <=? 122).

Definition hasDrive (fileName : string) : bool :=
  match fileName with
  | String c (String d _) => isLetter c && bool_decide (d = ":"%char)
  | _ => false
  end.

(** [validateFileName] of [yauzl], run on every entry before it is
    handed over: the error message, or [None] for a name that is
    relative and has no [..] segment. *)
Definition validateFileName (fileName : string) : option string :=
  if bool_decide (is_Some (JsString.indexOf backslash fileName))
  then Some "invalid characters in fileName"
  else if hasDrive fileName || Path.isAbsolute fileName
  then Some "absolute path"
  else if bool_decide (".." ∈ Path.splitSlash fileName)
  then Some "invalid relative path"
  else None.

(** The entry stands for a directory: its mode says so, or its name
    ends with a separator. *)
Definition entryIsDir (e : ZipEntry) : bool :=
  match entryData e with
  | EntryDir => true
  | EntryFile _ => Path.endsWithSlash (entryName e)
  end.

Definition entryBytes (e : ZipEntry) : string :=
  match entryData e with
  | EntryFile data => data
  | EntryDir => EmptyString
  end.

(** [extract-zip] on one entry.  [yauzl] refuses a name that is not a
    plain relative one before anything is created.  Entries under
    [__MACOSX/] are skipped.  For the others the directory of the
    destination is created and must not leave the target; then a
    directory entry becomes a directory and a file entry is written
    with its bytes. *)
Definition extractEntry (dir : string) (e : ZipEntry) : M unit :=
  match validateFileName (entryName e) with
  | Some err => throw err
  | None =>
      if JsString.startsWith "__MACOSX/" (entryName e) then mret ()
      else
        let dest := Path.join [dir; entryName e] in
        let destDir := Path.dirname dest in
        _ ← mkdirs destDir;
        if Path.under dir destDir then
          if entryIsDir e then mkdirs (Path.trimSlash dest)
          else
            _ ← mkdirs (Path.dirname dest);
            writeFile dest (entryBytes e)
        else throw "Out of bound path"
  end.

(** [extract(zipPath, { dir })]: [unzip] decodes the archive into its
    entries, in the order of the archive (the archive format is the
    library's business); the entries are handled one after the other
    and the first failure ends the extraction, what was extracted
    before staying in place. *)
Definition extract (unzip : string → option (list ZipEntry))
    (zipPath dir : string) : M unit :=
  if Path.isAbsolute dir then
    _ ← mkdirs dir;
    data ← readFile zipPath;
    match unzip data with
    | Some entries => forEach (extractEntry dir) entries
    | None => throw "invalid archive"
    end
  else throw "Target directory is expected to be absolute".

(** Nothing that exists on [fs] is missing from [fs'], and what was a
    directory still is one. *)
Definition keeps (fs fs' : FS) : Prop :=
  ∀ p, (is_Some (fs !! p) → is_Some (fs' !! p))
       ∧ (fs !! p = Some Dir → fs' !! p = Some Dir).

(** A call that removes nothing, whether it returns or throws. *)
Definition keeping {A} (m : M A) : Prop :=
  ∀ fs r fs', m fs = (r, fs') → keeps fs fs'.

(** Outside the paths [W] the regular files of [fs] and of [fs'] are
    the same ones, with the same content. *)
Definition sameFilesOutside (W : string → Prop) (fs fs' : FS) : Prop :=
  ∀ k c, ¬ W k → (fs !! k = Some (File c) ↔ fs' !! k = Some (File c)).


(** A call that creates, changes or replaces regular files at paths
    of [W] only, whether it returns or throws. *)
Definition writesWithin {A} (W : string → Prop) (m : M A) : Prop :=
  ∀ fs r fs', m fs = (r, fs') → sameFilesOutside W fs fs'.

End Fs.

(* ===================================================================== *)
(** ** The two request handlers *)
(* ===================================================================== *)

Module Server.
Import Fs.

(** An uploaded file as it arrives in the multipart body. *)
Record Upload := mkUpload {
  originalname : string;
  bytes : string
}.

(** A multipart request to [POST /generate-app]: the text fields of
    [req.body] (absent ones are [undefined]) and the file fields. *)
Record Request := mkRequest {
  appName : option string;
  packageName : option string;
  version : option string;
  url : option string;
  icon : option Upload;
  htmlFile : option Upload
}.

(** [req.files] after multer: [files.icon] and [files.htmlFile] are
    [undefined] or a one-element array whose element carries the
    [path] of the staged file. *)
Record Files := mkFiles {
  filesIcon : option string;
  filesHtmlFile : option string
}.

Global Instance Files_eq_dec : EqDecision Files.
Proof. solve_decision. Defined.

(** The three calls of [uuidv4()] a request can make: one per staged
    upload and one for the build directory. *)
Record Uuids := mkUuids {
  iconUuid : string;
  htmlUuid : string;
  buildUuid : string
}.

Inductive Body : Type :=
  | JsonError (error : string)
  | JsonSuccess (apkPath downloadUrl : string)
  | Attachment (filename content : string)
  | FrameworkError.

(** What the client gets: a response, or none because an exception was
    caught by nobody or the transfer broke. *)
Inductive Outcome : Type :=
  | Responded (status : nat) (body : Body)
  | NoResponse (err : string).

Global Instance Body_eq_dec : EqDecision Body.
Proof. solve_decision. Defined.

Global Instance Outcome_eq_dec : EqDecision Outcome.
Proof. solve_decision. Defined.

(** The [200] answer with a download link. *)
Definition isSuccess (out : Outcome) : bool :=
  match out with
  | Responded 200 (JsonSuccess _ _) => true
  | _ => false
  end.

Definition manifestRel : string := "app/src/main/AndroidManifest.xml".
Definition gradleRel : string := "app/build.gradle".
Definition iconRel : string := "app/src/main/res/mipmap-xxxhdpi/ic_launcher.png".
Definition webRel : string := "app/src/main/assets/web".
Definition mainActivityRel : string :=
  "app/src/main/java/com/example/webview/MainActivity.java".
Definition apkRel : string := "app/build/outputs/apk/debug/app-debug.apk".

(** Lines 56-59: the manifest's three chained [replace] calls. *)
Definition substituteManifest (packageName appName version manifest : string) : string :=
  JsString.replace "{{VERSION}}" version
    (JsString.replace "{{APP_NAME}}" appName
      (JsString.replace "{{PACKAGE_NAME}}" packageName manifest)).

(** Lines 65-67. *)
Definition substituteGradle (packageName version gradle : string) : string :=
  JsString.replace "{{VERSION}}" version
    (JsString.replace "{{PACKAGE_NAME}}" packageName gradle).

(** Line 92. *)
Definition substituteMainActivity (url mainActivity : string) : string :=
  JsString.replace "{{URL}}" url mainActivity.

Section Handlers.

(** The directory of [index.js]. *)
Variable __dirname : string.

(** [./gradlew assembleDebug] run in a directory: what it leaves on the
    disk and the [error] that [exec] hands to its callback ([None] for
    exit status zero). *)
Variable gradlew : string → FS → option string * FS.

(** The archive decoder of [extract-zip]. *)
Variable unzip : string → option (list ZipEntry).

Definition tempRoot : string := Path.join [__dirname; "../temp"].
Definition templateDir : string := Path.join [__dirname; "../templates/android-webview"].
Definition buildDirOf (buildId : string) : string :=
  Path.join [__dirname; "../temp"; buildId].

(** Lines 15-19: the [destination] of multer's disk storage, a fresh
    directory under the temp root for every uploaded file. *)
Definition stagingDir (uuid : string) : string :=
  Path.join [__dirname; "../temp"; uuid].

(** Lines 14-23: multer asks for the destination, which is created,
    and writes the upload into it under its original name; the path
    goes into [file.path].  [fs.ensureDirSync] runs inside multer's
    handler of the upload, where nothing catches what it throws; a
    failure to write the file is handed to multer's callback. *)
Definition stageFile (uuid : string) (u : Upload) : M string :=
  let tempDir := stagingDir uuid in
  _ ← uncaught (mkdirs tempDir);
  let p := Path.join [tempDir; originalname u] in
  _ ← writeFile p (bytes u);
  mret p.

Definition stageOpt (uuid : string) (u : option Upload) : M (option string) :=
  match u with
  | Some up => p ← stageFile uuid up; mret (Some p)
  | None => mret None
  end.

(** [upload.fields([{ name: 'icon' }, { name: 'htmlFile' }])]. *)
Definition stageUploads (ids : Uuids) (req : Request) : M Files :=
  i ← stageOpt (iconUuid ids) (icon req);
  h ← stageOpt (htmlUuid ids) (htmlFile req);
  mret (mkFiles i h).

(** The paths staging an upload can create: the staging directory,
    its missing ancestors and the file. *)
Definition stagingPaths (uuid : string) (u : option Upload) : list string :=
  match u with
  | Some up =>
      ancestors (stagingDir uuid)
      ++ [stagingDir uuid; Path.join [stagingDir uuid; originalname up]]
  | None => []
  end.

(** Line 41. *)
Definition missingField (req : Request) : bool :=
  negb (JsString.truthy (appName req)) || negb (JsString.truthy (packageName req))
  || negb (JsString.truthy (version req)) || negb (JsString.truthy (url req)).

(** The text of a field; line 41 has returned when a field is not a
    non-empty string. *)
Definition field (v : option string) : string := default EmptyString v.

(** Read a file, transform its text, write it back (lines 55-60, 64-68,
    91-93). *)
Definition rewriteFile (p : string) (f : string → string) : M unit :=
  text ← readFile p;
  writeFile p (f text).

(** Lines 54-68: the manifest and the Gradle file. *)
Definition substituteConfig (buildDir : string) (req : Request) : M unit :=
  _ ← rewriteFile (Path.join [buildDir; manifestRel])
        (substituteManifest (field (packageName req)) (field (appName req))
                            (field (version req)));
  rewriteFile (Path.join [buildDir; gradleRel])
        (substituteGradle (field (packageName req)) (field (version req))).

(** Lines 71-75. *)
Definition injectIcon (buildDir : string) (files : Files) : M unit :=
  match filesIcon files with
  | Some iconPath => copy iconPath (Path.join [buildDir; iconRel])
  | None => mret ()
  end.

(** Lines 78-87. *)
Definition injectWebContent (buildDir : string) (files : Files) : M unit :=
  match filesHtmlFile files with
  | Some htmlPath =>
      let targetHtmlPath := Path.join [buildDir; webRel] in
      if decide (Path.extname htmlPath = ".zip")
      then extract unzip htmlPath targetHtmlPath
      else copy htmlPath (Path.join [targetHtmlPath; "index.html"])
  | None => mret ()
  end.

(** Lines 90-93. *)
Definition substituteUrl (buildDir : string) (req : Request) : M unit :=
  rewriteFile (Path.join [buildDir; mainActivityRel])
        (substituteMainActivity (field (url req))).

(** Lines 46-93: everything the [try] block does between the field
    check and the call of [exec]; it yields the build directory. *)
Definition prepareBuild (buildId : string) (req : Request) (files : Files) : M string :=
  let buildDir := buildDirOf buildId in
  _ ← mkdirs buildDir;
  _ ← copy templateDir buildDir;
  _ ← substituteConfig buildDir req;
  _ ← injectIcon buildDir files;
  _ ← injectWebContent buildDir files;
  _ ← substituteUrl buildDir req;
  mret buildDir.

(** Lines 97-120: the callback of [exec].  It runs after the [try]
    block has been left, so what it throws is caught by nobody and no
    response is sent. *)
Definition execCallback (files : Files) (buildDir buildId : string)
    (error : option string) (fs : FS) : Outcome * FS :=
  match error with
  | Some _ => (Responded 500 (JsonError "Failed to build APK"), fs)
  | None =>
      let apkPath := Path.join [buildDir; apkRel] in
      if existsSync fs apkPath then
        match filesIcon files with
        | None => (NoResponse "TypeError: files.icon is undefined", fs)
        | Some iconPath =>
            let fs1 := remove (Path.dirname iconPath) fs in
            let fs2 := match filesHtmlFile files with
                       | Some htmlPath => remove (Path.dirname htmlPath) fs1
                       | None => fs1
                       end in
            (Responded 200 (JsonSuccess apkPath ("/download/" +:+ buildId)), fs2)
        end
      else (Responded 500 (JsonError "APK generation failed"), fs)
  end.

(** Lines 36-125 after the uploads are staged. *)
Definition handleGenerate (buildId : string) (req : Request) (files : Files)
    (fs : FS) : Outcome * FS :=
  if missingField req
  then (Responded 400 (JsonError "Missing required fields"), fs)
  else
    match prepareBuild buildId req files fs with
    | (Throw _, fs1) => (Responded 500 (JsonError "Internal server error"), fs1)
    | (Ok buildDir, fs1) =>
        let '(error, fs2) := gradlew buildDir fs1 in
        execCallback files buildDir buildId error fs2
    end.

(** [POST /generate-app]: multer first, then the handler.  An error
    that multer hands on is answered by the framework with [500]; an
    exception thrown in the [destination] callback is caught by nobody,
    so no response is sent (and the process ends). *)
Definition generateApp (ids : Uuids) (req : Request) (fs : FS) : Outcome * FS :=
  match stageUploads ids req fs with
  | (Throw e, fs1) =>
      if JsString.startsWith uncaughtMark e then (NoResponse e, fs1)
      else (Responded 500 FrameworkError, fs1)
  | (Ok files, fs1) => handleGenerate (buildUuid ids) req files fs1
  end.

(** Lines 128-143, [GET /download/:buildId].  [streamOk] tells whether
    the transfer ran to its end; the callback of [res.download] removes
    the directory of the APK in both cases. *)
Definition download (buildId : string) (streamOk : bool) (fs : FS) : Outcome * FS :=
  let apkPath := Path.join [__dirname; "../temp"; buildId; apkRel] in
  if existsSync fs apkPath then
    let out := match fs !! apkPath with
               | Some (File content) =>
                   if streamOk then Responded 200 (Attachment "app.apk" content)
                   else NoResponse "Download error"
               | _ => NoResponse "Download error"
               end in
    (out, remove (Path.dirname apkPath) fs)
  else (Responded 404 (JsonError "APK not found"), fs).

End Handlers.

End Server.

(* ===================================================================== *)
(** ** A concrete installation *)
(* ===================================================================== *)

Module Scenario.
Import Fs Server.

(** [index.js] lives in [/srv/app/src]. *)
Definition dirSegs : list string := ["srv"; "app"; "src"].
Definition dir : string := Path.absolute dirSegs.

Definition templateManifest : string :=
  "<manifest package={{PACKAGE_NAME}} label={{APP_NAME}} versionName={{VERSION}}/>".
Definition templateGradle : string :=
  "applicationId {{PACKAGE_NAME}}; versionName {{VERSION}}".
Definition templateMainActivity : string :=
  "webView.loadUrl({{URL}});".

(** The disk of a fresh installation: the template project and an empty
    temp root. *)
Definition disk : FS :=
  list_to_map
    [("/srv", Dir); ("/srv/app", Dir); ("/srv/app/src", Dir);
     ("/srv/app/temp", Dir);
     ("/srv/app/templates", Dir);
     ("/srv/app/templates/android-webview", Dir);
     ("/srv/app/templates/android-webview/app", Dir);
     ("/srv/app/templates/android-webview/app/build.gradle", File templateGradle);
     ("/srv/app/templates/android-webview/app/src", Dir);
     ("/srv/app/templates/android-webview/app/src/main", Dir);
     ("/srv/app/templates/android-webview/app/src/main/AndroidManifest.xml",
      File templateManifest);
     ("/srv/app/templates/android-webview/app/src/main/java", Dir);
     ("/srv/app/templates/android-webview/app/src/main/java/com", Dir);
     ("/srv/app/templates/android-webview/app/src/main/java/com/example", Dir);
     ("/srv/app/templates/android-webview/app/src/main/java/com/example/webview", Dir);
     ("/srv/app/templates/android-webview/app/src/main/java/com/example/webview/MainActivity.java",
      File templateMainActivity)].

(** Writes the APK where Gradle puts it. *)
Definition writeApk (cwd : string) (fs : FS) : FS :=
  <[Path.join [cwd; apkRel] := File "APK"]>
    (mkdirs (Path.join [cwd; "app/build/outputs/apk/debug"]) fs).2.

(** A build that succeeds. *)
Definition gradleOk (cwd : string) (fs : FS) : option string * FS :=
  (None, writeApk cwd fs).


(** A build that fails before it has written anything. *)
Definition gradleFails (cwd : string) (fs : FS) : option string * FS :=
  (Some "Command failed: ./gradlew assembleDebug", fs).

(** A build that fails after the APK has been packaged. *)
Definition gradleFailsLate (cwd : string) (fs : FS) : option string * FS :=
  (Some "Command failed: ./gradlew assembleDebug", writeApk cwd fs).

(** An archive packed on a Mac: a directory entry, two files, one of
    them three directories deep, and the resource fork the packer
    adds. *)
Definition siteEntries : list ZipEntry :=
  [mkZipEntry "assets/" EntryDir;
   mkZipEntry "index.html" (EntryFile "<h1>shop</h1>");
   mkZipEntry "assets/css/site/main.css" (EntryFile "body{}");
   mkZipEntry "__MACOSX/._index.html" (EntryFile "junk")].

Definition unzip (data : string) : option (list ZipEntry) :=
  if decide (data = "PK:site") then Some siteEntries else None.

Definition ids : Uuids := mkUuids "u-icon" "u-html" "b-1".

Definition pngIcon : Upload := mkUpload "icon.png" "PNG".
Definition htmlPage : Upload := mkUpload "page.html" "<p>hi</p>".
Definition siteZip : Upload := mkUpload "site.zip" "PK:site".

Definition fields (u : string) (i h : option Upload) : Request :=
  mkRequest (Some "Shop") (Some "com.example.shop") (Some "1.0") (Some u) i h.

(** All four fields and both uploads. *)
Definition fullRequest : Request :=
  fields "https://example.com/" (Some pngIcon) (Some htmlPage).

(** All four fields, a zipped site and an icon. *)
Definition zipRequest : Request :=
  fields "https://example.com/" (Some pngIcon) (Some siteZip).

(** All four fields, no icon. *)
Definition noIconRequest : Request :=
  fields "https://example.com/" None (Some htmlPage).

(** No [appName], but an icon. *)
Definition noNameRequest : Request :=
  mkRequest None (Some "com.example.shop") (Some "1.0")
            (Some "https://example.com/") (Some pngIcon) None.

(** A URL whose query string holds [$&]. *)
Definition dollarUrl : string := "https://example.com/search?cur=$&q=1".
Definition dollarRequest : Request := fields dollarUrl (Some pngIcon) None.

(** The stages of [POST /generate-app] for a request on [disk]: the
    disk and the staged files after multer, and the outcome of the
    preparation of the build. *)
Definition buildDir : string := "/srv/app/temp/b-1".

Definition staged (req : Request) : Result Files * FS :=
  stageUploads dir ids req disk.

Definition filesOf (req : Request) : Files :=
  match (staged req).1 with
  | Ok files => files
  | Throw _ => mkFiles None None
  end.

Definition prepared (req : Request) : Result string * FS :=
  prepareBuild dir unzip (buildUuid ids) req (filesOf req) (staged req).2.

(** The disk once [tool] has run in the build directory. *)
Definition built (tool : string → FS → option string * FS) (req : Request) : FS :=
  (tool buildDir (prepared req).2).2.

(** The disk after a successful [POST /generate-app] with both
    uploads. *)
Definition afterBuild : FS :=
  (generateApp dir gradleOk unzip ids fullRequest disk).2.

End Scenario.

(* ===================================================================== *)
(** ** Facts about strings *)
(* ===================================================================== *)

Section StringFacts.

Lemma str_app_cons c (a b : string) : String c a +:+ b = String c (a +:+ b).
Proof. reflexivity. Qed.

Lemma str_app_nil_r (a : string) : a +:+ EmptyString = a.
Proof. induction a as [|c a IH]; [done|]. by rewrite str_app_cons, IH. Qed.

Lemma str_app_assoc (a b c : string) : (a +:+ b) +:+ c = a +:+ (b +:+ c).
Proof. induction a as [|x a IH]; [done|]. by rewrite !str_app_cons, IH. Qed.

Lemma str_app_length (a b : string) :
  String.length (a +:+ b) = String.length a + String.length b.
Proof. induction a as [|x a IH]; [done|]. rewrite str_app_cons. simpl. by rewrite IH. Qed.

Lemma str_app_inv_head (a b c : string) : a +:+ b = a +:+ c → b = c.
Proof. induction a as [|x a IH]; [done|]. rewrite !str_app_cons. intros [= H]. auto. Qed.

Lemma startsWith_app (p r : string) : JsString.startsWith p (p +:+ r) = true.
Proof.
  induction p as [|c p IH]; [done|].
  rewrite str_app_cons. simpl. by rewrite decide_True.
Qed.

Lemma startsWith_inv (p s : string) :
  JsString.startsWith p s = true → ∃ r, s = p +:+ r.
Proof.
  revert s. induction p as [|c p IH]; intros s H.
  - by exists s.
  - destruct s as [|d s]; [done|]. simpl in H.
    destruct (decide (c = d)) as [->|]; [|done].
    destruct (IH _ H) as [r ->]. by exists r.
Qed.

Lemma startsWith_cancel (a b c : string) :
  JsString.startsWith (a +:+ b) (a +:+ c) = JsString.startsWith b c.
Proof.
  induction a as [|x a IH]; [done|].
  rewrite !str_app_cons. simpl. by rewrite decide_True.
Qed.

Lemma take_app (a b : string) : JsString.take (String.length a) (a +:+ b) = a.
Proof. induction a as [|x a IH]; [by destruct b|]. rewrite str_app_cons. simpl. by rewrite IH. Qed.

Lemma drop_app (a b : string) : JsString.drop (String.length a) (a +:+ b) = b.
Proof. induction a as [|x a IH]; [by destruct b|]. by rewrite str_app_cons. Qed.

Lemma take_drop (n : nat) (s : string) : JsString.take n s +:+ JsString.drop n s = s.
Proof.
  revert s. induction n as [|n IH]; intros [|c s]; try done.
  simpl. by rewrite str_app_cons, IH.
Qed.

Lemma take_length_le (n : nat) (s : string) :
  n ≤ String.length s → String.length (JsString.take n s) = n.
Proof.
  revert s. induction n as [|n IH]; intros [|c s] H; simpl in *; try done; try lia.
  rewrite IH; lia.
Qed.

(** What [indexOf] finds is an occurrence, and no occurrence starts
    before it. *)
Lemma indexOf_Some (pat s : string) (n : nat) :
  JsString.indexOf pat s = Some n →
  JsString.firstAt pat s (JsString.take n s)
                   (JsString.drop (n + String.length pat) s)
  ∧ String.length (JsString.take n s) = n.
Proof.
  revert n. induction s as [|c s IH]; intros n; simpl.
  - destruct (JsString.startsWith pat EmptyString) eqn:E; [|done].
    intros [= <-]. apply startsWith_inv in E as [r E].
    destruct pat; [|done]. repeat split; simpl; try done. intros; lia.
  - destruct (JsString.startsWith pat (String c s)) eqn:E.
    + intros [= <-]. apply startsWith_inv in E as [r E].
      repeat split; simpl; [|intros; lia].
      unfold JsString.occursAt. rewrite E at 1.
      change (EmptyString +:+ ?x) with x. f_equal.
      rewrite E. by rewrite drop_app.
    + destruct (JsString.indexOf pat s) as [m|] eqn:Em; [|done].
      intros [= <-]. destruct (IH m eq_refl) as [[Hocc Hmin] Hlen].
      repeat split.
      * unfold JsString.occursAt in *. simpl. rewrite str_app_cons. by f_equal.
      * intros pre' post' Hocc'. unfold JsString.occursAt in Hocc'.
        destruct pre' as [|d pre'].
        { exfalso. change (EmptyString +:+ ?x) with x in Hocc'.
          rewrite Hocc', startsWith_app in E. done. }
        rewrite str_app_cons in Hocc'. injection Hocc' as -> Hocc'.
        simpl. specialize (Hmin _ _ Hocc'). lia.
      * simpl. by rewrite Hlen.
Qed.

Lemma indexOf_None (pat s : string) :
  JsString.indexOf pat s = None → JsString.absent pat s.
Proof.
  induction s as [|c s IH]; simpl.
  - destruct (JsString.startsWith pat EmptyString) eqn:E; [done|].
    intros _ pre post H. unfold JsString.occursAt in H.
    destruct pre; [|done]. destruct pat; [done|done].
  - destruct (JsString.startsWith pat (String c s)) eqn:E; [done|].
    destruct (JsString.indexOf pat s) eqn:Em; [done|].
    intros _ pre post H. unfold JsString.occursAt in H.
    destruct pre as [|d pre].
    + change (EmptyString +:+ ?x) with x in H.
      rewrite H, startsWith_app in E. done.
    + rewrite str_app_cons in H. injection H as -> H.
      by apply (IH eq_refl pre post).
Qed.

Lemma occursAt_inj_length (tok s pre post pre' post' : string) :
  JsString.occursAt tok s pre post → JsString.occursAt tok s pre' post' →
  String.length pre = String.length pre' → pre = pre' ∧ post = post'.
Proof.
  unfold JsString.occursAt. intros -> H. revert pre' H.
  induction pre as [|c pre IH]; intros [|d pre'] H Hl; simpl in *; try done.
  - split; [done|]. change (EmptyString +:+ ?x) with x in H.
    by apply str_app_inv_head in H.
  - rewrite !str_app_cons in H. injection H as -> H.
    destruct (IH pre' H) as [-> ->]; [lia|done].
Qed.

Lemma firstAt_indexOf (tok s pre post : string) :
  JsString.firstAt tok s pre post →
  JsString.indexOf tok s = Some (String.length pre).
Proof.
  intros [Hocc Hmin].
  destruct (JsString.indexOf tok s) as [n|] eqn:E.
  - destruct (indexOf_Some _ _ _ E) as [[Hocc' Hmin'] Hlen].
    f_equal. specialize (Hmin _ _ Hocc'). specialize (Hmin' _ _ Hocc). lia.
  - by destruct (indexOf_None _ _ E pre post).
Qed.

(** The first occurrence is replaced, the text around it is kept. *)
Lemma replace_firstAt (tok v s pre post : string) :
  JsString.firstAt tok s pre post →
  JsString.replace tok v s = pre +:+ JsString.expand tok pre post v +:+ post.
Proof.
  intros H. unfold JsString.replace, JsString.getSubstitution.
  rewrite (firstAt_indexOf _ _ _ _ H).
  destruct H as [-> _].
  assert (JsString.drop (String.length pre + String.length tok)
            (pre +:+ tok +:+ post) = post) as ->.
  { by rewrite <- str_app_length, <- (str_app_assoc pre tok post), drop_app. }
  by rewrite take_app.
Qed.

Lemma replace_absent (tok v s : string) :
  JsString.absent tok s → JsString.replace tok v s = s.
Proof.
  intros H. unfold JsString.replace.
  destruct (JsString.indexOf tok s) as [n|] eqn:E; [|done].
  destruct (indexOf_Some _ _ _ E) as [[Hocc _] _]. by destruct (H _ _ Hocc).
Qed.

(** A value without [$] is spliced in as it is. *)
Lemma expand_dollarFree (m b a v : string) :
  JsString.dollarFree v = true → JsString.expand m b a v = v.
Proof.
  induction v as [|c v IH]; [done|]. simpl.
  destruct (decide (c = "$"%char)); [done|]. intros H. by rewrite IH.
Qed.

Lemma replace_ReplacedOnce (tok v s : string) :
  JsString.ReplacedOnce tok v s (JsString.replace tok v s).
Proof.
  destruct (JsString.indexOf tok s) as [n|] eqn:E.
  - destruct (indexOf_Some _ _ _ E) as [H _].
    rewrite (replace_firstAt _ _ _ _ _ H). constructor; [done|].
    apply expand_dollarFree.
  - rewrite replace_absent by by apply indexOf_None. constructor.
    by apply indexOf_None.
Qed.

(** For a value without [$] the relation pins the result down: it holds
    of [replace] and of nothing else. *)
Lemma ReplacedOnce_iff (tok v s s' : string) :
  JsString.dollarFree v = true →
  JsString.ReplacedOnce tok v s s' ↔ s' = JsString.replace tok v s.
Proof.
  intros Hv. split; [|intros ->; apply replace_ReplacedOnce].
  intros [s0 H|s0 pre post x H Hx].
  - by rewrite replace_absent.
  - by rewrite (replace_firstAt _ _ _ _ _ H), expand_dollarFree, (Hx Hv).
Qed.

End StringFacts.

(* ===================================================================== *)
(** ** Facts about paths *)
(* ===================================================================== *)

Section PathFacts.

Lemma splitSlash_cons (s : string) : ∃ x xs, Path.splitSlash s = x :: xs.
Proof.
  induction s as [|c s (x & xs & IH)]; simpl; [by eauto|].
  destruct (decide (c = Path.slash)); [by eauto|]. rewrite IH. eauto.
Qed.

(** Splitting distributes over a separator. *)
Lemma splitSlash_app (a b : string) :
  Path.splitSlash (a +:+ String Path.slash b)
  = Path.splitSlash a ++ Path.splitSlash b.
Proof.
  induction a as [|c a IH].
  - reflexivity.
  - rewrite str_app_cons. simpl. rewrite IH.
    destruct (decide (c = Path.slash)); [done|].
    by destruct (splitSlash_cons a) as (x & xs & ->).
Qed.

Lemma splitSlash_slashFree (s : string) :
  Path.slashFree s = true → Path.splitSlash s = [s].
Proof.
  induction s as [|c s IH]; [done|]. simpl.
  destruct (decide (c = Path.slash)); [done|]. intros H. by rewrite IH.
Qed.

Lemma joinSlash_cons2 (x y : string) (l : list string) :
  Path.joinSlash (x :: y :: l) = x +:+ String Path.slash (Path.joinSlash (y :: l)).
Proof. reflexivity. Qed.

Lemma joinSlash_app (l1 l2 : list string) :
  l1 ≠ [] → l2 ≠ [] →
  Path.joinSlash (l1 ++ l2)
  = Path.joinSlash l1 +:+ String Path.slash (Path.joinSlash l2).
Proof.
  intros H1 H2. induction l1 as [|x [|y l1] IH]; [done| |].
  - destruct l2; [done|]. reflexivity.
  - change ((x :: y :: l1) ++ l2) with (x :: (y :: l1) ++ l2).
    change ((y :: l1) ++ l2) with (y :: l1 ++ l2) at 1.
    rewrite joinSlash_cons2. change (y :: l1 ++ l2) with ((y :: l1) ++ l2).
    rewrite IH by done. by rewrite joinSlash_cons2, str_app_assoc.
Qed.

Lemma splitSlash_joinSlash (segs : list string) :
  segs ≠ [] → Forall (λ s, Path.slashFree s = true) segs →
  Path.splitSlash (Path.joinSlash segs) = segs.
Proof.
  intros Hne H. induction H as [|x [|y l] Hx Hl IH]; [done| |].
  - by apply splitSlash_slashFree.
  - rewrite joinSlash_cons2, splitSlash_app, IH by done.
    by rewrite splitSlash_slashFree.
Qed.

(** A proper segment is pushed by [normalizeString]. *)
Lemma normalizeStep_proper (a : bool) (res : list string) (seg : string) :
  Path.properSeg seg = true → Path.normalizeStep a res seg = seg :: res.
Proof.
  unfold Path.properSeg, Path.normalizeStep. intros H.
  repeat case_decide; subst; done.
Qed.

Lemma fold_normalizeStep_proper (a : bool) (res segs : list string) :
  Forall (λ s, Path.properSeg s = true) segs →
  fold_left (Path.normalizeStep a) segs res = rev segs ++ res.
Proof.
  intros H. revert res. induction H as [|x l Hx Hl IH]; intros res; [done|].
  simpl. rewrite normalizeStep_proper, IH by done. by rewrite <- List.app_assoc.
Qed.

Lemma normalizeSegs_app_proper (a : bool) (l segs : list string) :
  Forall (λ s, Path.properSeg s = true) segs →
  Path.normalizeSegs a (l ++ segs) = Path.normalizeSegs a l ++ segs.
Proof.
  intros H. unfold Path.normalizeSegs.
  rewrite fold_left_app, fold_normalizeStep_proper by done.
  by rewrite rev_app_distr, rev_involutive.
Qed.

Lemma isAbsolute_app (a b : string) :
  a ≠ EmptyString → Path.isAbsolute (a +:+ b) = Path.isAbsolute a.
Proof. by destruct a. Qed.

Lemma endsWithSlash_app (a b : string) :
  b ≠ EmptyString → Path.endsWithSlash (a +:+ b) = Path.endsWithSlash b.
Proof.
  intros Hb. induction a as [|c a IH]; [done|].
  rewrite str_app_cons. simpl. rewrite IH.
  destruct (a +:+ b) eqn:E; [|done]. by destruct a, b.
Qed.

Lemma app_slash_nonempty (a b : string) : a +:+ String Path.slash b ≠ EmptyString.
Proof. by destruct a. Qed.

(** [normalize] on a path with no trailing separator whose kept
    segments are not all gone. *)
Lemma normalize_plain (path : string) :
  Path.endsWithSlash path = false →
  Path.normalizeString path (negb (Path.isAbsolute path)) ≠ EmptyString →
  Path.normalize path
  = (if Path.isAbsolute path then "/" else EmptyString)
    +:+ Path.normalizeString path (negb (Path.isAbsolute path)).
Proof.
  intros Ht Hp. unfold Path.normalize. destruct path as [|c path]; [done|].
  rewrite Ht. destruct (Path.normalizeString _ _) eqn:E; [done|].
  by destruct (Path.isAbsolute _).
Qed.

Lemma get_app_r (a b : string) (k : nat) :
  String.get (String.length a + k) (a +:+ b) = String.get k b.
Proof. induction a as [|c a IH]; [done|]. by rewrite str_app_cons. Qed.

Lemma slashFree_get (x : string) (k : nat) (c : ascii) :
  Path.slashFree x = true → String.get k x = Some c → c ≠ Path.slash.
Proof.
  revert k. induction x as [|d x IH]; intros k; [done|]. simpl.
  destruct (decide (d = Path.slash)); [done|].
  destruct k; [by intros _ [= <-]|]. by apply IH.
Qed.

Lemma get_lt (x : string) (k : nat) :
  k < String.length x → ∃ c, String.get k x = Some c.
Proof.
  revert k. induction x as [|d x IH]; intros k H; simpl in *; [lia|].
  destruct k; [by eauto|]. apply IH. lia.
Qed.

Lemma dirnameScan_last (P x : string) (k : nat) (m : bool) :
  1 ≤ String.length P → Path.slashFree x = true →
  k ≤ String.length x → (k = 0 → m = false) →
  Path.dirnameScan (P +:+ String Path.slash x) (String.length P + k) m
  = Some (String.length P).
Proof.
  intros HP Hx. revert m. induction k as [|k IH]; intros m Hk Hm.
  - rewrite Nat.add_0_r. destruct (String.length P) as [|n] eqn:E; [lia|].
    simpl. rewrite <- E, <- (Nat.add_0_r (String.length P)), get_app_r. simpl.
    by rewrite Hm.
  - rewrite Nat.add_succ_r. simpl.
    rewrite <- Nat.add_succ_r, get_app_r. simpl.
    destruct (get_lt x k) as [c Hc]; [lia|]. rewrite Hc.
    rewrite decide_False by by eapply slashFree_get.
    apply IH; [lia|done].
Qed.

(** The directory of [P/x] is [P]. *)
Lemma dirname_last (P x : string) :
  2 ≤ String.length P → x ≠ EmptyString → Path.slashFree x = true →
  Path.dirname (P +:+ String Path.slash x) = P.
Proof.
  intros HP Hne Hx. unfold Path.dirname.
  destruct (P +:+ String Path.slash x) eqn:E; [by destruct P|]. rewrite <- E.
  assert (String.length (P +:+ String Path.slash x) - 1
          = String.length P + String.length x) as ->.
  { rewrite str_app_length. simpl. lia. }
  rewrite dirnameScan_last; [|lia|done|lia|].
  - rewrite bool_decide_eq_false_2 by lia. rewrite andb_false_r. apply take_app.
  - destruct x; [done|]. simpl. lia.
Qed.

End PathFacts.

Section JoinFacts.

Lemma nameSeg_proper (s : string) : Path.nameSeg s = true → Path.properSeg s = true.
Proof. unfold Path.nameSeg. by intros [? ?]%andb_true_iff. Qed.

Lemma nameSeg_slashFree (s : string) : Path.nameSeg s = true → Path.slashFree s = true.
Proof. unfold Path.nameSeg. by intros [? ?]%andb_true_iff. Qed.

Lemma nameSeg_nonempty (s : string) : Path.nameSeg s = true → s ≠ EmptyString.
Proof. by destruct s. Qed.

Lemma nameSeg_not_dotdot (s : string) : Path.nameSeg s = true → s ≠ "..".
Proof. intros H ->. done. Qed.

Lemma normalizeStep_empty (a : bool) (res : list string) :
  Path.normalizeStep a res EmptyString = res.
Proof. reflexivity. Qed.

(** The segments of [absolute segs] followed by [/rest]. *)
Lemma normalizeSegs_absolute (segs : list string) (rest : string) :
  Forall (λ s, Path.nameSeg s = true) segs →
  Path.normalizeSegs false
    (Path.splitSlash (Path.absolute segs +:+ String Path.slash rest))
  = rev (fold_left (Path.normalizeStep false) (Path.splitSlash rest) (rev segs)).
Proof.
  intros H. unfold Path.normalizeSegs, Path.absolute. f_equal.
  rewrite splitSlash_app, fold_left_app. f_equal.
  change (String Path.slash ?x) with (EmptyString +:+ String Path.slash x).
  rewrite splitSlash_app, fold_left_app. simpl.
  destruct segs as [|x l]; [done|].
  rewrite splitSlash_joinSlash; [|done|].
  - rewrite fold_normalizeStep_proper, List.app_nil_r; [done|].
    eapply Forall_impl; [done|]. apply nameSeg_proper.
  - eapply Forall_impl; [done|]. apply nameSeg_slashFree.
Qed.

(** What [normalizeString] keeps is never empty. *)
Lemma fold_normalizeStep_nonempty (a : bool) (segs res : list string) :
  Forall (λ s, s ≠ EmptyString) res →
  Forall (λ s, s ≠ EmptyString) (fold_left (Path.normalizeStep a) segs res).
Proof.
  revert res. induction segs as [|x l IH]; intros res H; [done|].
  simpl. apply IH. unfold Path.normalizeStep.
  repeat case_decide; subst; try done.
  - destruct res as [|t r]; [destruct a; by repeat constructor|].
    case_decide; [destruct a; [by constructor|done]|]. by inversion H.
  - by constructor.
Qed.

Lemma joinSlash_nonempty (l : list string) :
  l ≠ [] → Forall (λ s, s ≠ EmptyString) l → Path.joinSlash l ≠ EmptyString.
Proof.
  intros Hne H. destruct H as [|x [|y l] Hx Hl]; [done|done|].
  rewrite joinSlash_cons2. by destruct x.
Qed.

Lemma normalize_absolute (segs : list string) (rest : string) (res : list string) :
  Forall (λ s, Path.nameSeg s = true) segs →
  Path.endsWithSlash (String Path.slash rest) = false →
  fold_left (Path.normalizeStep false) (Path.splitSlash rest) (rev segs) = res →
  res ≠ [] →
  Path.normalize (Path.absolute segs +:+ String Path.slash rest)
  = Path.absolute (rev res).
Proof.
  intros Hs Ht Hres Hne.
  assert (Path.isAbsolute (Path.absolute segs +:+ String Path.slash rest) = true)
    as Habs by done.
  assert (Path.normalizeString (Path.absolute segs +:+ String Path.slash rest) false
          = Path.joinSlash (rev res)) as Hn.
  { unfold Path.normalizeString. by rewrite normalizeSegs_absolute, Hres. }
  rewrite normalize_plain.
  - rewrite Habs. simpl negb. by rewrite Hn.
  - by rewrite endsWithSlash_app.
  - rewrite Habs. simpl negb. rewrite Hn. apply joinSlash_nonempty.
    + intros E. apply (f_equal (@rev string)) in E. rewrite rev_involutive in E. done.
    + apply Forall_rev. rewrite <- Hres. apply fold_normalizeStep_nonempty.
      apply Forall_rev. eapply Forall_impl; [done|]. apply nameSeg_nonempty.
Qed.

End JoinFacts.

(* ===================================================================== *)
(** ** The extension of a file name *)
(* ===================================================================== *)

Section ExtFacts.



Lemma drop_length_eq (x : string) (n : nat) :
  n ≤ String.length x →
  String.length (JsString.drop n x) = String.length x - n.
Proof.
  revert x. induction n as [|n IH]; intros [|c x] H; simpl in *; try done; try lia.
  apply IH. lia.
Qed.







End ExtFacts.

(* ===================================================================== *)
(** ** Facts about the file system calls *)
(* ===================================================================== *)

Section FsFacts.
Import Fs.

Lemma keeps_refl (fs : FS) : keeps fs fs.
Proof. by intros p. Qed.

Lemma keeps_trans (fs1 fs2 fs3 : FS) : keeps fs1 fs2 → keeps fs2 fs3 → keeps fs1 fs3.
Proof. intros H1 H2 p. destruct (H1 p), (H2 p). split; auto. Qed.

Lemma keeps_insert_file (fs : FS) (p c : string) :
  fs !! p ≠ Some Dir → keeps fs (<[p := File c]> fs).
Proof.
  intros H q. destruct (decide (p = q)) as [->|Hne].
  - rewrite lookup_insert_eq. split; [by eauto|done].
  - by rewrite lookup_insert_ne.
Qed.

Lemma keeping_ret {A} (a : A) : keeping (mret a).
Proof. intros fs r fs' [= <- <-]. apply keeps_refl. Qed.

Lemma keeping_throw {A} (e : string) : keeping (@throw A e).
Proof. intros fs r fs' [= <- <-]. apply keeps_refl. Qed.

Lemma bind_Ok {A B} (m : M A) (f : A → M B) (fs fs' : FS) (b : Result B) :
  (m ≫= f) fs = (b, fs') →
  (∃ a fs1, m fs = (Ok a, fs1) ∧ f a fs1 = (b, fs'))
  ∨ (∃ e, m fs = (Throw e, fs') ∧ b = Throw e).
Proof.
  unfold mbind, M_bind. destruct (m fs) as [[a|e] fs1]; intros H.
  - left. eauto.
  - right. injection H as <- <-. eauto.
Qed.

Lemma keeping_bind {A B} (m : M A) (f : A → M B) :
  keeping m → (∀ a, keeping (f a)) → keeping (m ≫= f).
Proof.
  intros Hm Hf fs r fs' H.
  destruct (bind_Ok _ _ _ _ _ H) as [(a & fs1 & H1 & H2)|(e & H1 & _)].
  - eapply keeps_trans; [by eapply Hm|by eapply Hf].
  - by eapply Hm.
Qed.

(** The disk after [mkdir -p]. *)
Lemma lookup_mkdir_fold (ps : list string) (fs : FS) (p : string) :
  foldr (λ q m, <[q := Dir]> m) fs ps !! p
  = if decide (p ∈ ps) then Some Dir else fs !! p.
Proof.
  induction ps as [|q ps IH]; cbn [foldr].
  - destruct (decide (p ∈ [])) as [H|]; [by apply elem_of_nil in H|done].
  - destruct (decide (q = p)) as [->|Hne].
    + rewrite lookup_insert_eq.
      destruct (decide (p ∈ p :: ps)) as [|H]; [done|].
      exfalso. apply H, elem_of_cons. by left.
    + rewrite lookup_insert_ne, IH by done.
      destruct (decide (p ∈ ps)) as [H|H], (decide (p ∈ q :: ps)) as [H'|H']; try done.
      * exfalso. apply H', elem_of_cons. by right.
      * apply elem_of_cons in H' as [?|?]; by subst.
Qed.

Lemma keeping_mkdirs (p : string) : keeping (mkdirs p).
Proof.
  intros fs r fs'. unfold mkdirs.
  destruct (existsb _ _); intros [= <- <-]; [apply keeps_refl|].
  intros q. rewrite lookup_mkdir_fold. destruct (decide _); split; eauto.
Qed.

Lemma mkdirs_Ok_self (p : string) (fs fs' : FS) :
  mkdirs p fs = (Ok (), fs') → fs' !! p = Some Dir.
Proof.
  unfold mkdirs. destruct (existsb _ _); intros [= <-].
  rewrite lookup_mkdir_fold, decide_True; [done|].
  apply elem_of_app. right. apply elem_of_cons. by left.
Qed.

(** [mkdir -p] leaves regular files as they are. *)
Lemma mkdirs_Ok_file (p k c : string) (fs fs' : FS) :
  mkdirs p fs = (Ok (), fs') → fs !! k = Some (File c) → fs' !! k = Some (File c).
Proof.
  unfold mkdirs. destruct (existsb _ _) eqn:E; intros [= <-] Hk.
  rewrite lookup_mkdir_fold. destruct (decide _) as [Hin|]; [|done].
  exfalso. apply not_true_iff_false in E. apply E.
  apply existsb_exists. exists k. split; [by apply list_elem_of_In|].
  unfold isFile. by rewrite Hk.
Qed.

(** And it creates no regular file. *)
Lemma mkdirs_Ok_file_back (p k c : string) (fs fs' : FS) :
  mkdirs p fs = (Ok (), fs') → fs' !! k = Some (File c) → fs !! k = Some (File c).
Proof.
  unfold mkdirs. destruct (existsb _ _); intros [= <-].
  rewrite lookup_mkdir_fold. by destruct (decide _).
Qed.

Lemma keeping_readFile (p : string) : keeping (readFile p).
Proof.
  intros fs r fs'. unfold readFile.
  destruct (fs !! p) as [[|c]|]; intros [= <- <-]; apply keeps_refl.
Qed.

Lemma readFile_Ok (p c : string) (fs fs' : FS) :
  readFile p fs = (Ok c, fs') → fs' = fs ∧ fs !! p = Some (File c).
Proof. unfold readFile. destruct (fs !! p) as [[|d]|]; intros [= <- <-]; done. Qed.

Lemma keeping_writeFile (p data : string) : keeping (writeFile p data).
Proof.
  intros fs r fs'. unfold writeFile.
  destruct (fs !! p) as [[|c]|] eqn:E; [intros [= <- <-]; apply keeps_refl| |];
    (destruct (isDir _ _); intros [= <- <-]; [|apply keeps_refl]);
    apply keeps_insert_file; by rewrite E.
Qed.

(** What a successful [writeFile] leaves behind. *)
Lemma writeFile_Ok (p data : string) (fs fs' : FS) :
  writeFile p data fs = (Ok (), fs') → fs' = <[p := File data]> fs.
Proof.
  unfold writeFile. destruct (fs !! p) as [[|c]|]; [done| |];
    by (destruct (isDir _ _); intros [= <-]).
Qed.


Lemma keeping_copy (src dest : string) : keeping (copy src dest).
Proof.
  intros fs r fs'. unfold copy.
  destruct (fs !! src) as [[|c]|] eqn:Es; [| |intros [= <- <-]; apply keeps_refl].
  - destruct (Path.under src dest); [intros [= <- <-]; apply keeps_refl|].
    destruct (existsb _ _) eqn:Ec; [intros [= <- <-]; apply keeps_refl|].
    intros H. destruct (bind_Ok _ _ _ _ _ H) as [(a & fs1 & H1 & H2)|(e & H1 & _)];
      [|by eapply keeping_mkdirs].
    injection H2 as <- <-. apply keeping_mkdirs in H1.
    intros q. destruct (H1 q) as [Hs Hd].
    rewrite lookup_union. destruct (list_to_map _ !! q) as [v|] eqn:El.
    + split; [intros _; destruct (fs1 !! q); by eauto|].
      intros Hq. apply elem_of_list_to_map_2 in El.
      apply not_true_iff_false in Ec.
      destruct v as [|c]; [by destruct (fs1 !! q)|].
      exfalso. apply Ec. apply existsb_exists. exists (q, File c).
      split; [by apply list_elem_of_In|]. unfold conflicts. simpl. by rewrite Hq.
    + rewrite (left_id_L None _). done.
  - destruct (fs !! dest) as [[|d]|] eqn:Ed; [intros [= <- <-]; apply keeps_refl| |];
      (intros H; destruct (bind_Ok _ _ _ _ _ H) as [(a & fs1 & H1 & H2)|(e & H1 & _)];
       [|by eapply keeping_mkdirs]);
      injection H2 as <- <-; apply keeping_mkdirs in H1;
      intros q; destruct (H1 q) as [Hs Hd];
      (destruct (decide (dest = q)) as [<-|Hne];
       [rewrite lookup_insert_eq; split; [by eauto|by rewrite Ed]
       |by rewrite lookup_insert_ne]).
Qed.


(** The disk after [rm -rf]. *)
Lemma lookup_remove (p q : string) (fs : FS) :
  remove p fs !! q = if Path.under p q then None else fs !! q.
Proof.
  unfold remove. destruct (Path.under p q) eqn:E.
  - apply map_lookup_filter_None. right. intros x _. simpl. by rewrite E.
  - destruct (fs !! q) as [x|] eqn:Eq.
    + by apply map_lookup_filter_Some.
    + apply map_lookup_filter_None. by left.
Qed.

Lemma under_refl (p : string) : Path.under p p = true.
Proof. unfold Path.under. by rewrite bool_decide_eq_true_2. Qed.

Lemma under_child (d x : string) : Path.under d (d +:+ String Path.slash x) = true.
Proof.
  unfold Path.under. apply orb_true_iff. right.
  by rewrite startsWith_cancel.
Qed.

(** A directory is not below something strictly longer. *)
Lemma under_longer (d y : string) :
  y ≠ EmptyString → Path.under (d +:+ y) d = false.
Proof.
  intros Hy. unfold Path.under. apply orb_false_iff. split.
  - apply bool_decide_eq_false_2. intros E.
    apply (f_equal String.length) in E. rewrite str_app_length in E.
    destruct y; [done|]. simpl in E. lia.
  - rewrite <- (str_app_nil_r d) at 2. rewrite str_app_assoc, startsWith_cancel.
    by destruct y.
Qed.

Lemma keeping_uncaught {A} (m : M A) : keeping m → keeping (uncaught m).
Proof.
  intros Hm fs r fs' H. unfold uncaught in H.
  destruct (m fs) as [[a|e] fs1] eqn:E; injection H as <- <-; by eapply Hm.
Qed.

Lemma uncaught_Ok {A} (m : M A) (a : A) (fs fs' : FS) :
  uncaught m fs = (Ok a, fs') → m fs = (Ok a, fs').
Proof.
  unfold uncaught. by destruct (m fs) as [[a'|e] fs1]; intros [= <- <-].
Qed.

(** Marking what a call throws does not change what it leaves on the
    disk. *)
Lemma uncaught_disk {A} (m : M A) (r : Result A) (fs fs' : FS) :
  uncaught m fs = (r, fs') → ∃ r', m fs = (r', fs').
Proof.
  unfold uncaught. destruct (m fs) as [[a|e] fs1]; intros [= <- <-]; eauto.
Qed.

Lemma keeping_forEach {A} (f : A → M unit) (l : list A) :
  (∀ a, keeping (f a)) → keeping (forEach f l).
Proof.
  intros Hf. induction l as [|x l IH]; [apply keeping_ret|].
  simpl. apply keeping_bind; [apply Hf|by intros _].
Qed.

Lemma keeping_extractEntry (dir : string) (e : ZipEntry) :
  keeping (extractEntry dir e).
Proof.
  unfold extractEntry.
  destruct (validateFileName _); [apply keeping_throw|].
  destruct (JsString.startsWith _ _); [apply keeping_ret|].
  apply keeping_bind; [apply keeping_mkdirs|intros _].
  destruct (Path.under _ _); [|apply keeping_throw].
  destruct (entryIsDir e); [apply keeping_mkdirs|].
  apply keeping_bind; [apply keeping_mkdirs|intros _; apply keeping_writeFile].
Qed.

Lemma keeping_extract (unzip : string → option (list ZipEntry)) (zipPath dir : string) :
  keeping (extract unzip zipPath dir).
Proof.
  unfold extract. destruct (Path.isAbsolute dir); [|apply keeping_throw].
  apply keeping_bind; [apply keeping_mkdirs|intros _].
  apply keeping_bind; [apply keeping_readFile|intros data].
  destruct (unzip data); [|apply keeping_throw].
  apply keeping_forEach, keeping_extractEntry.
Qed.



End FsFacts.

(** The calls that remove nothing. *)
Create HintDb keeping discriminated.
#[global] Hint Resolve keeping_ret keeping_throw keeping_mkdirs keeping_readFile
  keeping_writeFile keeping_copy keeping_extract : keeping.

(* ===================================================================== *)
(** ** Paths below an installation directory *)
(* ===================================================================== *)

Section InstallPaths.

Lemma join_nonempty (l : list string) :
  l ≠ [] → Forall (λ a, a ≠ EmptyString) l →
  Path.join l = Path.normalize (Path.joinSlash l).
Proof.
  intros Hne H. unfold Path.join.
  assert (filter (λ a, a ≠ EmptyString) l = l) as ->.
  { clear Hne. induction H as [|x l Hx Hl IH]; [done|].
    by rewrite filter_cons_True, IH. }
  by destruct l.
Qed.

Lemma endsWithSlash_slashFree (s : string) :
  Path.slashFree s = true → Path.endsWithSlash s = false.
Proof.
  induction s as [|c s IH]; [done|]. simpl.
  destruct (decide (c = Path.slash)); [done|]. intros H.
  destruct s; [by apply bool_decide_eq_false_2|by apply IH].
Qed.

Lemma endsWithSlash_names (names : list string) :
  names ≠ [] → Forall (λ s, Path.nameSeg s = true) names →
  Path.endsWithSlash (String Path.slash (Path.joinSlash names)) = false.
Proof.
  intros Hne H. induction H as [|x [|y l] Hx Hl IH]; [done| |].
  - change (String Path.slash ?s) with ("/" +:+ s).
    rewrite endsWithSlash_app by by apply nameSeg_nonempty.
    by apply endsWithSlash_slashFree, nameSeg_slashFree.
  - rewrite joinSlash_cons2.
    change (String Path.slash (x +:+ ?s)) with (String Path.slash x +:+ s).
    rewrite endsWithSlash_app by done. by apply IH.
Qed.

Lemma fold_left_cons {A B} (f : A → B → A) (x : B) (l : list B) (r : A) :
  fold_left f (x :: l) r = fold_left f l (f r x).
Proof. reflexivity. Qed.

Variable dsegs : list string.
Hypothesis dsegs_names : Forall (λ s, Path.nameSeg s = true) dsegs.

Lemma pop_dir :
  Path.normalizeStep false (rev dsegs) ".." = tail (rev dsegs).
Proof using dsegs_names.
  assert (Forall (λ s, Path.nameSeg s = true) (rev dsegs)) as H
    by by apply Forall_rev.
  destruct H as [|top r Ht _]; [done|].
  unfold Path.normalizeStep. simpl.
  rewrite decide_False; [done|]. by apply nameSeg_not_dotdot.
Qed.

(** [dir/../temp/names...] is the sibling [temp] of the directory followed by
    [names]. *)
Lemma normalize_temp (names : list string) :
  Forall (λ s, Path.nameSeg s = true) names →
  Path.normalize
    (Path.absolute dsegs +:+ String Path.slash (Path.joinSlash (".." :: "temp" :: names)))
  = Path.absolute (Path.parentSegs dsegs ++ "temp" :: names).
Proof using dsegs_names.
  intros Hn.
  rewrite (normalize_absolute _ _ (rev ("temp" :: names) ++ tail (rev dsegs))).
  - unfold Path.parentSegs. by rewrite rev_app_distr, rev_involutive.
  - done.
  - change (".." :: "temp" :: names) with ([".."] ++ ("temp" :: names)).
    rewrite joinSlash_app by done.
    change (String Path.slash (?a +:+ ?s)) with (String Path.slash a +:+ s).
    rewrite endsWithSlash_app by done.
    apply endsWithSlash_names; [done|]. by constructor.
  - rewrite splitSlash_joinSlash; [|done|].
    + rewrite fold_left_cons, pop_dir.
      apply fold_normalizeStep_proper.
      constructor; [done|]. eapply Forall_impl; [done|]. apply nameSeg_proper.
    + repeat (constructor; [done|]).
      eapply Forall_impl; [done|]. apply nameSeg_slashFree.
  - simpl. by destruct (rev names).
Qed.

(** [dir/../temp/../names...] leaves [temp] again. *)
Lemma normalize_escape (names : list string) :
  names ≠ [] → Forall (λ s, Path.nameSeg s = true) names →
  Path.normalize
    (Path.absolute dsegs +:+ String Path.slash (Path.joinSlash (".." :: "temp" :: ".." :: names)))
  = Path.absolute (Path.parentSegs dsegs ++ names).
Proof using dsegs_names.
  intros Hne Hn.
  rewrite (normalize_absolute _ _ (rev names ++ tail (rev dsegs))).
  - unfold Path.parentSegs. by rewrite rev_app_distr, rev_involutive.
  - done.
  - change (".." :: "temp" :: ".." :: names) with ([".."; "temp"; ".."] ++ names).
    rewrite joinSlash_app by done.
    change (String Path.slash (?a +:+ ?s)) with (String Path.slash a +:+ s).
    rewrite endsWithSlash_app by done.
    by apply endsWithSlash_names.
  - rewrite splitSlash_joinSlash; [|done|].
    + rewrite fold_left_cons, pop_dir, !fold_left_cons.
      change (Path.normalizeStep false
                (Path.normalizeStep false (tail (rev dsegs)) "temp") "..")
        with (tail (rev dsegs)).
      apply fold_normalizeStep_proper.
      eapply Forall_impl; [done|]. apply nameSeg_proper.
    + repeat (constructor; [done|]).
      eapply Forall_impl; [done|]. apply nameSeg_slashFree.
  - intros E. apply app_eq_nil in E as [E _].
    apply (f_equal (@rev string)) in E. by rewrite rev_involutive in E.
Qed.

Lemma tempRoot_absolute :
  Server.tempRoot (Path.absolute dsegs) = Path.absolute (Path.parentSegs dsegs ++ ["temp"]).
Proof using dsegs_names.
  unfold Server.tempRoot. rewrite join_nonempty by (repeat constructor; done).
  by apply (normalize_temp []).
Qed.

Lemma buildDirOf_absolute (buildId : string) :
  Path.nameSeg buildId = true →
  Server.buildDirOf (Path.absolute dsegs) buildId
  = Path.absolute (Path.parentSegs dsegs ++ ["temp"; buildId]).
Proof using dsegs_names.
  intros Hb. unfold Server.buildDirOf.
  rewrite join_nonempty;
    [|done|repeat (constructor; [by (done || apply nameSeg_nonempty)|]); done].
  apply (normalize_temp [buildId]). by repeat constructor.
Qed.

Lemma absolute_app (l1 l2 : list string) :
  l1 ≠ [] → l2 ≠ [] →
  Path.absolute (l1 ++ l2)
  = Path.absolute l1 +:+ String Path.slash (Path.joinSlash l2).
Proof. intros H1 H2. unfold Path.absolute. by rewrite joinSlash_app. Qed.

(** The path [GET /download/:buildId] looks at, for a build identifier
    that is a plain name. *)
Lemma apkPath_absolute (buildId : string) :
  Path.nameSeg buildId = true →
  Path.join [Path.absolute dsegs; "../temp"; buildId; Server.apkRel]
  = Server.buildDirOf (Path.absolute dsegs) buildId +:+ "/app/build/outputs/apk/debug"
    +:+ "/app-debug.apk".
Proof using dsegs_names.
  intros Hb. rewrite buildDirOf_absolute by done.
  rewrite join_nonempty;
    [|done|repeat (constructor; [by (done || apply nameSeg_nonempty)|]); done].
  pose proof (normalize_temp
    [buildId; "app"; "build"; "outputs"; "apk"; "debug"; "app-debug.apk"]) as H.
  etrans; [apply H; by repeat constructor|].
  change (Path.parentSegs dsegs ++ ?x :: ?y :: ?l)
    with (Path.parentSegs dsegs ++ [x; y] ++ l).
  rewrite List.app_assoc, absolute_app; [done| |done].
  intros E. by apply app_eq_nil in E as [_ ?].
Qed.

(** With [..] for a build identifier the path leaves the temp root. *)
Lemma apkPath_escape :
  Path.join [Path.absolute dsegs; "../temp"; ".."; Server.apkRel]
  = Path.absolute (Path.parentSegs dsegs
      ++ ["app"; "build"; "outputs"; "apk"; "debug"; "app-debug.apk"]).
Proof using dsegs_names.
  rewrite join_nonempty by (repeat constructor; done).
  by apply (normalize_escape
    ["app"; "build"; "outputs"; "apk"; "debug"; "app-debug.apk"]);
    repeat constructor.
Qed.

Lemma apkPath_escape_outside :
  Path.under (Server.tempRoot (Path.absolute dsegs))
             (Path.join [Path.absolute dsegs; "../temp"; ".."; Server.apkRel])
  = false.
Proof using dsegs_names.
  rewrite tempRoot_absolute, apkPath_escape.
  destruct (Path.parentSegs dsegs) as [|x l] eqn:E; [done|].
  rewrite !absolute_app by done. unfold Path.under.
  apply orb_false_iff. split.
  - apply bool_decide_eq_false_2. by intros ?%str_app_inv_head.
  - by rewrite str_app_assoc, startsWith_cancel.
Qed.

End InstallPaths.

(* ===================================================================== *)
(** ** Facts about the handlers *)
(* ===================================================================== *)

Section HandlerFacts.
Import Fs Server.

Variable __dirname : string.
Variable gradlew : string → FS → option string * FS.
Variable unzip : string → option (list ZipEntry).

Lemma keeping_rewriteFile (p : string) (f : string → string) :
  keeping (rewriteFile p f).
Proof.
  apply keeping_bind; [apply keeping_readFile|intros; apply keeping_writeFile].
Qed.

Lemma keeping_stageFile (uuid : string) (u : Upload) :
  keeping (stageFile __dirname uuid u).
Proof.
  apply keeping_bind; [apply keeping_uncaught, keeping_mkdirs|intros _].
  apply keeping_bind; [apply keeping_writeFile|intros _; apply keeping_ret].
Qed.

Lemma keeping_stageOpt (uuid : string) (u : option Upload) :
  keeping (stageOpt __dirname uuid u).
Proof.
  destruct u; [|apply keeping_ret].
  apply keeping_bind; [apply keeping_stageFile|intros; apply keeping_ret].
Qed.


Lemma keeping_injectIcon (buildDir : string) (files : Files) :
  keeping (injectIcon buildDir files).
Proof. unfold injectIcon. destruct (filesIcon files); [apply keeping_copy|apply keeping_ret]. Qed.

Lemma keeping_injectWebContent (buildDir : string) (files : Files) :
  keeping (injectWebContent unzip buildDir files).
Proof.
  unfold injectWebContent. destruct (filesHtmlFile files); [|apply keeping_ret].
  destruct (decide _); [apply keeping_extract|apply keeping_copy].
Qed.

Local Hint Resolve keeping_rewriteFile keeping_injectIcon
  keeping_injectWebContent : keeping.

(** Nothing the handler does before it starts the build removes
    anything. *)
Lemma keeping_prepareBuild (buildId : string) (req : Request) (files : Files) :
  keeping (prepareBuild __dirname unzip buildId req files).
Proof.
  unfold prepareBuild, substituteConfig, substituteUrl.
  repeat (apply keeping_bind; [|intros _]); auto with keeping.
Qed.

(** When the preparation succeeds the build directory is there. *)
Lemma prepareBuild_Ok (buildId : string) (req : Request) (files : Files)
    (fs fs' : FS) (buildDir : string) :
  prepareBuild __dirname unzip buildId req files fs = (Ok buildDir, fs') →
  buildDir = buildDirOf __dirname buildId ∧ fs' !! buildDir = Some Dir.
Proof.
  unfold prepareBuild. intros H.
  destruct (bind_Ok _ _ _ _ _ H) as [([] & fs1 & H1 & H2)|(e & _ & ?)]; [|done].
  apply mkdirs_Ok_self in H1.
  assert (keeps fs1 fs') as Hk.
  { revert H2. apply (keeping_bind (copy _ _)); [apply keeping_copy|intros _].
    unfold substituteConfig, substituteUrl.
    repeat (apply keeping_bind; [|intros _]); auto with keeping. }
  repeat (destruct (bind_Ok _ _ _ _ _ H2) as [([] & ? & _ & H3)|(e & _ & ?)];
          [clear H2; rename H3 into H2|done]).
  injection H2 as <- <-. split; [done|]. by apply Hk.
Qed.

(** Staging changes the disk at the staging paths only. *)
Lemma stageOpt_changes (uuid : string) (u : option Upload) (fs fs' : FS)
    (r : Result (option string)) (p : string) :
  stageOpt __dirname uuid u fs = (r, fs') →
  fs' !! p ≠ fs !! p → p ∈ stagingPaths __dirname uuid u.
Proof.
  destruct u as [up|]; [|by intros [= <- <-]].
  unfold stageOpt, stageFile, stagingPaths, stagingDir.
  set (tempDir := Path.join [__dirname; "../temp"; uuid]).
  set (file := Path.join [tempDir; originalname up]).
  intros H Hp.
  assert (∀ x fs1, mkdirs tempDir fs = (x, fs1) → fs1 !! p ≠ fs !! p →
            p ∈ ancestors tempDir ++ [tempDir]) as Hmk.
  { intros x fs1 Hx Hne. unfold mkdirs in Hx.
    destruct (existsb _ _); injection Hx as <- <-; [done|].
    rewrite lookup_mkdir_fold in Hne. by destruct (decide _). }
  assert (∀ x fs1 fs2, writeFile file (bytes up) fs1 = (x, fs2) →
            fs2 !! p ≠ fs1 !! p → p = file) as Hwr.
  { intros x fs1 fs2 Hx Hne. unfold writeFile in Hx.
    destruct (decide (p = file)) as [|Hpf]; [done|]. exfalso.
    destruct (fs1 !! file) as [[|c]|]; try destruct (isDir _ _);
      injection Hx as <- <-; try done;
      by rewrite lookup_insert_ne in Hne. }
  assert (∀ x fs1, stageFile __dirname uuid up fs = (x, fs1) →
            fs1 !! p ≠ fs !! p →
            p ∈ ancestors tempDir ++ [tempDir] ∨ p = file) as Hst.
  { intros x fs1 Hs Hne. unfold stageFile in Hs.
    destruct (bind_Ok _ _ _ _ _ Hs) as [([] & fs2 & H3 & H4)|(e & H3 & _)];
      apply uncaught_disk in H3 as [r' H3]; [|left; by eapply Hmk].
    destruct (decide (fs2 !! p = fs !! p)) as [E|E]; [|left; by eapply Hmk].
    right. rewrite <- E in Hne.
    destruct (bind_Ok _ _ _ _ _ H4) as [([] & fs3 & H5 & H6)|(e & H5 & _)].
    - injection H6 as <- <-. by eapply Hwr.
    - by eapply Hwr. }
  assert (p ∈ ancestors tempDir ++ [tempDir] ∨ p = file) as [Hin| ->].
  { destruct (bind_Ok _ _ _ _ _ H) as [(a & fs1 & H1 & H2)|(e & H1 & _)].
    - injection H2 as <- <-. by eapply Hst.
    - by eapply Hst. }
  - apply elem_of_app in Hin as [Hin|Hin%list_elem_of_singleton].
    + apply elem_of_app. by left.
    + apply elem_of_app. right. apply elem_of_cons. by left.
  - apply elem_of_app. right. apply elem_of_cons. right.
    apply elem_of_cons. by left.
Qed.

Lemma stageUploads_changes (ids : Uuids) (req : Request) (fs fs' : FS)
    (r : Result Files) (p : string) :
  stageUploads __dirname ids req fs = (r, fs') →
  fs' !! p ≠ fs !! p →
  p ∈ stagingPaths __dirname (iconUuid ids) (icon req)
      ++ stagingPaths __dirname (htmlUuid ids) (htmlFile req).
Proof.
  unfold stageUploads. intros H Hp. apply elem_of_app.
  destruct (decide (p ∈ stagingPaths __dirname (iconUuid ids) (icon req)))
    as [|Hnot]; [by left|right].
  destruct (bind_Ok _ _ _ _ _ H) as [(i & fs1 & H1 & H2)|(e & H1 & _)].
  - assert (fs1 !! p = fs !! p) as E.
    { destruct (decide (fs1 !! p = fs !! p)) as [|Hne]; [done|].
      destruct Hnot. by eapply stageOpt_changes. }
    rewrite <- E in Hp.
    destruct (bind_Ok _ _ _ _ _ H2) as [(h & fs2 & H3 & H4)|(e & H3 & _)].
    + injection H4 as <- <-. by eapply stageOpt_changes.
    + by eapply stageOpt_changes.
  - destruct Hnot. by eapply stageOpt_changes.
Qed.

(** After a successful staging the staging directories exist and the
    handler sees the staged files. *)
Lemma stageOpt_Ok (uuid : string) (u : option Upload) (fs fs' : FS)
    (r : option string) :
  stageOpt __dirname uuid u fs = (Ok r, fs') →
  match u with
  | Some up => fs' !! stagingDir __dirname uuid = Some Dir ∧ is_Some r
  | None => r = None
  end.
Proof.
  destruct u as [up|]; [|by intros [= <- <-]].
  unfold stageOpt, stageFile. intros H.
  destruct (bind_Ok _ _ _ _ _ H) as [(a & fs1 & H1 & H2)|(e & _ & ?)]; [|done].
  injection H2 as <- <-.
  destruct (bind_Ok _ _ _ _ _ H1) as [([] & fs2 & H3 & H4)|(e & _ & ?)]; [|done].
  destruct (bind_Ok _ _ _ _ _ H4) as [([] & fs3 & H5 & H6)|(e & _ & ?)]; [|done].
  injection H6 as <- <-. apply uncaught_Ok, mkdirs_Ok_self in H3.
  split; [|by eauto]. by apply (keeping_writeFile _ _ _ _ _ H5).
Qed.

Lemma stageUploads_Ok (ids : Uuids) (req : Request) (fs fs' : FS) (files : Files) :
  stageUploads __dirname ids req fs = (Ok files, fs') →
  (icon req = None → filesIcon files = None)
  ∧ (is_Some (icon req) → fs' !! stagingDir __dirname (iconUuid ids) = Some Dir)
  ∧ (is_Some (htmlFile req) → fs' !! stagingDir __dirname (htmlUuid ids) = Some Dir).
Proof.
  unfold stageUploads. intros H.
  destruct (bind_Ok _ _ _ _ _ H) as [(i & fs1 & H1 & H2)|(e & _ & ?)]; [|done].
  destruct (bind_Ok _ _ _ _ _ H2) as [(h & fs2 & H3 & H4)|(e & _ & ?)]; [|done].
  injection H4 as <- <-.
  pose proof (stageOpt_Ok _ _ _ _ _ H1) as Hi.
  pose proof (stageOpt_Ok _ _ _ _ _ H3) as Hh.
  repeat split.
  - intros E. by rewrite E in Hi.
  - intros [u E]. rewrite E in Hi. destruct Hi as [Hi _].
    by apply (keeping_stageOpt _ _ _ _ _ H3).
  - intros [u E]. rewrite E in Hh. by destruct Hh.
Qed.

End HandlerFacts.

(* ===================================================================== *)
(** ** The properties of the service *)
(* ===================================================================== *)

Import Fs Server.

(** Decide a closed equation between disks, or values that hold one, by
    evaluation. *)
Ltac by_evaluation := compute_done.

(** C1.  A request with all four fields and no icon, whose build exits
    with status zero and leaves the APK in place: the callback of [exec]
    reads [files.icon[0]] although [files.icon] is undefined, throws, and
    the client gets no response at all, so no [200] and no download
    link.  (Lines 71 and 108 guard the optional uploads, line 107 does
    not.) *)
Theorem no_icon_success_sends_no_response
    (__dirname : string) (gradlew : string → FS → option string * FS)
    (unzip : string → option (list ZipEntry))
    (ids : Uuids) (req : Request) (fs fs1 fs2 fs3 : FS) (files : Files)
    (buildDir : string) :
  icon req = None →
  stageUploads __dirname ids req fs = (Ok files, fs1) →
  missingField req = false →
  prepareBuild __dirname unzip (buildUuid ids) req files fs1 = (Ok buildDir, fs2) →
  gradlew buildDir fs2 = (None, fs3) →
  existsSync fs3 (Path.join [buildDir; apkRel]) = true →
  generateApp __dirname gradlew unzip ids req fs
  = (NoResponse "TypeError: files.icon is undefined", fs3).
Proof.
  intros Hicon Hst Hmiss Hprep Hgr Hapk.
  destruct (stageUploads_Ok _ _ _ _ _ _ Hst) as (Hnone & _ & _).
  unfold generateApp, handleGenerate, execCallback.
  by rewrite Hst, Hmiss, Hprep, Hgr, Hapk, (Hnone Hicon).
Qed.

Lemma no_icon_success_sends_no_response_witness :
  generateApp Scenario.dir Scenario.gradleOk Scenario.unzip Scenario.ids
    Scenario.noIconRequest Scenario.disk
  = (NoResponse "TypeError: files.icon is undefined",
     Scenario.built Scenario.gradleOk Scenario.noIconRequest).
Proof.
  apply (no_icon_success_sends_no_response Scenario.dir Scenario.gradleOk
           Scenario.unzip Scenario.ids Scenario.noIconRequest Scenario.disk
           (Scenario.staged Scenario.noIconRequest).2
           (Scenario.prepared Scenario.noIconRequest).2
           (Scenario.built Scenario.gradleOk Scenario.noIconRequest)
           (Scenario.filesOf Scenario.noIconRequest) Scenario.buildDir).
  - reflexivity.
  - by_evaluation.
  - reflexivity.
  - by_evaluation.
  - reflexivity.
  - by_evaluation.
Defined.

(** The same request with an icon is answered: the guard that is
    missing only matters when [files.icon] is undefined. *)
Lemma icon_success_responds_200
    (__dirname : string) (gradlew : string → FS → option string * FS)
    (unzip : string → option (list ZipEntry))
    (ids : Uuids) (req : Request) (fs fs1 fs2 fs3 : FS) (files : Files)
    (buildDir iconPath : string) :
  filesIcon files = Some iconPath →
  stageUploads __dirname ids req fs = (Ok files, fs1) →
  missingField req = false →
  prepareBuild __dirname unzip (buildUuid ids) req files fs1 = (Ok buildDir, fs2) →
  gradlew buildDir fs2 = (None, fs3) →
  existsSync fs3 (Path.join [buildDir; apkRel]) = true →
  (generateApp __dirname gradlew unzip ids req fs).1
  = Responded 200 (JsonSuccess (Path.join [buildDir; apkRel])
                               ("/download/" +:+ buildUuid ids)).
Proof.
  intros Hicon Hst Hmiss Hprep Hgr Hapk.
  unfold generateApp, handleGenerate, execCallback.
  by rewrite Hst, Hmiss, Hprep, Hgr, Hapk, Hicon.
Qed.



(** Two occurrences of a token: the second one stays. *)
Example replace_leaves_second_occurrence :
  substituteMainActivity "https://example.com/" "load({{URL}}); log({{URL}});"
  = "load(https://example.com/); log({{URL}});".
Proof. reflexivity. Qed.

(** The token is matched character by character: [.] is no wildcard. *)
Example replace_is_literal :
  JsString.replace "a.c" "X" "abc a.c" = "abc X".
Proof. reflexivity. Qed.

(** C3, what the code does.  The first download of a built workspace
    streams the APK and the second one is answered with [404], whether
    or not the transfer ran to its end.  But the callback removes
    [path.dirname(apkPath)], the directory [app/build/outputs/apk/debug]
    of the build, and nothing else: the workspace directory and
    everything in it outside that directory stay on the disk. *)
Theorem download_removes_only_apk_directory
    (dsegs : list string) (buildId content : string) (streamOk : bool) (fs : FS) :
  Forall (λ s, Path.nameSeg s = true) dsegs →
  Path.nameSeg buildId = true →
  let __dirname := Path.absolute dsegs in
  let workspace := buildDirOf __dirname buildId in
  let debugDir := workspace +:+ "/app/build/outputs/apk/debug" in
  fs !! Path.join [__dirname; "../temp"; buildId; apkRel] = Some (File content) →
  let r := download __dirname buildId streamOk fs in
  r.1 = (if streamOk then Responded 200 (Attachment "app.apk" content)
         else NoResponse "Download error")
  ∧ (∀ again, download __dirname buildId again r.2
              = (Responded 404 (JsonError "APK not found"), r.2))
  ∧ r.2 !! workspace = fs !! workspace
  ∧ (∀ p, Path.under debugDir p = false → r.2 !! p = fs !! p).
Proof.
  intros Hd Hb d workspace debugDir. subst d. unfold download.
  rewrite (apkPath_absolute dsegs Hd buildId Hb). fold workspace.
  rewrite <- str_app_assoc. fold debugDir.
  change "/app-debug.apk" with (String Path.slash "app-debug.apk").
  intros Hapk.
  assert (Path.dirname (debugDir +:+ String Path.slash "app-debug.apk") = debugDir)
    as Hdir.
  { apply dirname_last; [|done|done].
    unfold debugDir. rewrite str_app_length. simpl. lia. }
  unfold existsSync. rewrite Hapk, bool_decide_eq_true_2 by by eauto.
  rewrite Hdir. simpl. repeat split.
  - intros again.
    rewrite bool_decide_eq_false_2; [done|].
    rewrite lookup_remove, under_child. by intros [? ?].
  - rewrite lookup_remove. unfold debugDir. by rewrite under_longer.
  - intros p Hp. by rewrite lookup_remove, Hp.
Qed.

Lemma download_removes_only_apk_directory_witness :
  let workspace := buildDirOf Scenario.dir "b-1" in
  let r := download Scenario.dir "b-1" true Scenario.afterBuild in
  r.1 = Responded 200 (Attachment "app.apk" "APK")
  ∧ (∀ again, download Scenario.dir "b-1" again r.2
              = (Responded 404 (JsonError "APK not found"), r.2))
  ∧ r.2 !! workspace = Scenario.afterBuild !! workspace
  ∧ (∀ p, Path.under (workspace +:+ "/app/build/outputs/apk/debug") p = false →
          r.2 !! p = Scenario.afterBuild !! p).
Proof.
  apply (download_removes_only_apk_directory Scenario.dirSegs "b-1" "APK" true
           Scenario.afterBuild).
  - by_evaluation.
  - reflexivity.
  - by_evaluation.
Defined.

(** On the concrete installation: after the download the workspace
    directory and its manifest are still there, only the APK and its
    directory are gone. *)
Example workspace_survives_download :
  let fs' := (download Scenario.dir "b-1" true Scenario.afterBuild).2 in
  fs' !! "/srv/app/temp/b-1" = Some Dir
  ∧ is_Some (fs' !! "/srv/app/temp/b-1/app/src/main/AndroidManifest.xml")
  ∧ fs' !! "/srv/app/temp/b-1/app/build/outputs/apk" = Some Dir
  ∧ fs' !! "/srv/app/temp/b-1/app/build/outputs/apk/debug" = None.
Proof. vm_compute. repeat split; eauto. Qed.

(** C4 as the specification words it fails: a request without
    [appName] that carries an icon is answered with [400], and the
    staging directory of the icon has appeared under the temp root. *)
Lemma missing_field_leaves_staging_directory :
  let r := generateApp Scenario.dir Scenario.gradleOk Scenario.unzip
             Scenario.ids Scenario.noNameRequest Scenario.disk in
  missingField Scenario.noNameRequest = true
  ∧ r.1 = Responded 400 (JsonError "Missing required fields")
  ∧ Path.under (tempRoot Scenario.dir) "/srv/app/temp/u-icon" = true
  ∧ Scenario.disk !! "/srv/app/temp/u-icon" = None
  ∧ r.2 !! "/srv/app/temp/u-icon" = Some Dir.
Proof. vm_compute. done. Qed.

(** A field that is [undefined] is a missing field. *)
Lemma undefined_field_missing (req : Request) :
  appName req = None ∨ packageName req = None ∨ version req = None ∨ url req = None →
  missingField req = true.
Proof.
  unfold missingField. intros [-> | [-> | [-> | ->]]]; simpl;
    rewrite ?orb_true_r; done.
Qed.

(** C4, as the code has it.  When a required field is missing (or
    empty) and multer has staged the uploads, the answer is [400] with
    a JSON error and the handler creates nothing: the disk is the one
    multer left.  Multer changes the disk at the staging paths only (one
    directory per uploaded file, the file in it), so a request without
    files leaves the disk as it was. *)
Theorem missing_field_400_only_staging
    (__dirname : string) (gradlew : string → FS → option string * FS)
    (unzip : string → option (list ZipEntry))
    (ids : Uuids) (req : Request) (fs fs1 : FS) (files : Files) :
  missingField req = true →
  stageUploads __dirname ids req fs = (Ok files, fs1) →
  generateApp __dirname gradlew unzip ids req fs
  = (Responded 400 (JsonError "Missing required fields"), fs1)
  ∧ (∀ p, fs1 !! p ≠ fs !! p →
       p ∈ stagingPaths __dirname (iconUuid ids) (icon req)
           ++ stagingPaths __dirname (htmlUuid ids) (htmlFile req))
  ∧ (icon req = None → htmlFile req = None → fs1 = fs).
Proof.
  intros Hmiss Hst. repeat split.
  - unfold generateApp, handleGenerate. by rewrite Hst, Hmiss.
  - intros p Hp. by eapply stageUploads_changes.
  - intros Hi Hh. unfold stageUploads in Hst. rewrite Hi, Hh in Hst.
    by injection Hst.
Qed.

Lemma missing_field_400_only_staging_witness :
  generateApp Scenario.dir Scenario.gradleOk Scenario.unzip Scenario.ids
    Scenario.noNameRequest Scenario.disk
  = (Responded 400 (JsonError "Missing required fields"),
     (Scenario.staged Scenario.noNameRequest).2).
Proof.
  apply (missing_field_400_only_staging Scenario.dir Scenario.gradleOk
           Scenario.unzip Scenario.ids Scenario.noNameRequest Scenario.disk
           (Scenario.staged Scenario.noNameRequest).2
           (Scenario.filesOf Scenario.noNameRequest)).
  - reflexivity.
  - by_evaluation.
Defined.




(** On the concrete installation, through the whole handler: the
    zipped site is unpacked below [assets/web], the plain page of the
    other request becomes [index.html], and an archive named [site.ZIP]
    is not recognised, it is copied to [index.html] as it is. *)
Example web_content_end_to_end :
  let run req := (generateApp Scenario.dir Scenario.gradleOk Scenario.unzip
                    Scenario.ids req Scenario.disk).2 in
  let web := "/srv/app/temp/b-1/app/src/main/assets/web" in
  run Scenario.zipRequest !! (web +:+ "/index.html") = Some (File "<h1>shop</h1>")
  ∧ run Scenario.zipRequest !! (web +:+ "/assets/css/site/main.css")
    = Some (File "body{}")
  ∧ run Scenario.fullRequest !! (web +:+ "/index.html") = Some (File "<p>hi</p>")
  ∧ run (Scenario.fields "https://example.com/" (Some Scenario.pngIcon)
           (Some (mkUpload "site.ZIP" "PK:site"))) !! (web +:+ "/index.html")
    = Some (File "PK:site").
Proof. vm_compute. done. Qed.



(** C7, as the code has it.  The build exits with a non-zero status:
    the answer is a [500] without download link, the build directory
    was there when the build started, and the handler leaves the disk
    exactly as the build tool left it.  [GET /download/:buildId] answers
    [404] when the failed build left no APK; the handler neither checks
    nor removes one. *)
Theorem failed_build_500_workspace_kept
    (__dirname : string) (gradlew : string → FS → option string * FS)
    (unzip : string → option (list ZipEntry))
    (ids : Uuids) (req : Request) (fs fs1 fs2 fs3 : FS) (files : Files)
    (buildDir error : string) :
  stageUploads __dirname ids req fs = (Ok files, fs1) →
  missingField req = false →
  prepareBuild __dirname unzip (buildUuid ids) req files fs1 = (Ok buildDir, fs2) →
  gradlew buildDir fs2 = (Some error, fs3) →
  generateApp __dirname gradlew unzip ids req fs
  = (Responded 500 (JsonError "Failed to build APK"), fs3)
  ∧ buildDir = buildDirOf __dirname (buildUuid ids)
  ∧ fs2 !! buildDir = Some Dir
  ∧ (existsSync fs3 (Path.join [__dirname; "../temp"; buildUuid ids; apkRel]) = false →
     ∀ streamOk,
       download __dirname (buildUuid ids) streamOk fs3
       = (Responded 404 (JsonError "APK not found"), fs3)).
Proof.
  intros Hst Hmiss Hprep Hgr.
  destruct (prepareBuild_Ok _ _ _ _ _ _ _ _ Hprep) as [Hbd Hdir].
  repeat split; try done.
  - unfold generateApp, handleGenerate, execCallback.
    by rewrite Hst, Hmiss, Hprep, Hgr.
  - intros Hapk streamOk. unfold download. by rewrite Hapk.
Qed.

Lemma failed_build_500_workspace_kept_witness :
  generateApp Scenario.dir Scenario.gradleFails Scenario.unzip Scenario.ids
    Scenario.fullRequest Scenario.disk
  = (Responded 500 (JsonError "Failed to build APK"),
     Scenario.built Scenario.gradleFails Scenario.fullRequest)
  ∧ (Scenario.prepared Scenario.fullRequest).2 !! Scenario.buildDir = Some Dir
  ∧ download Scenario.dir "b-1" true
      (Scenario.built Scenario.gradleFails Scenario.fullRequest)
    = (Responded 404 (JsonError "APK not found"),
       Scenario.built Scenario.gradleFails Scenario.fullRequest).
Proof.
  destruct (failed_build_500_workspace_kept Scenario.dir Scenario.gradleFails
              Scenario.unzip Scenario.ids Scenario.fullRequest Scenario.disk
              (Scenario.staged Scenario.fullRequest).2
              (Scenario.prepared Scenario.fullRequest).2
              (Scenario.built Scenario.gradleFails Scenario.fullRequest)
              (Scenario.filesOf Scenario.fullRequest) Scenario.buildDir
              "Command failed: ./gradlew assembleDebug")
    as (H1 & H2 & H3 & H4).
  - by_evaluation.
  - reflexivity.
  - by_evaluation.
  - reflexivity.
  - split; [exact H1|]. split; [exact H3|].
    apply H4. by_evaluation.
Defined.

(** C7 as the specification words it fails: a build that exits with a
    non-zero status after the APK has been packaged is answered with
    [500], and [GET /download/b-1] then serves the APK. *)
Lemma failed_build_can_be_downloaded :
  let r := generateApp Scenario.dir Scenario.gradleFailsLate Scenario.unzip
             Scenario.ids Scenario.fullRequest Scenario.disk in
  (Scenario.gradleFailsLate "/srv/app/temp/b-1" Scenario.disk).1
    = Some "Command failed: ./gradlew assembleDebug"
  ∧ r.1 = Responded 500 (JsonError "Failed to build APK")
  ∧ (download Scenario.dir "b-1" true r.2).1
    = Responded 200 (Attachment "app.apk" "APK")
  ∧ (download Scenario.dir "b-1" true r.2).1
    ≠ Responded 404 (JsonError "APK not found").
Proof. vm_compute. repeat split; discriminate. Qed.

(** A value without [$] is put in place of the first occurrence of the
    token as it is, and the rest of the text is kept. *)
Lemma replace_plain_value (tok v s pre post : string) :
  JsString.dollarFree v = true → JsString.firstAt tok s pre post →
  JsString.replace tok v s = pre +:+ v +:+ post.
Proof.
  intros Hv H. by rewrite (replace_firstAt _ _ _ _ _ H), expand_dollarFree.
Qed.

(** Rewriting one file leaves every other path of the disk alone. *)
Lemma rewriteFile_frame (p q : string) (f : string → string) (fs fs' : FS)
    (r : Result unit) :
  rewriteFile p f fs = (r, fs') → q ≠ p → fs' !! q = fs !! q.
Proof.
  unfold rewriteFile. intros H Hq.
  destruct (bind_Ok _ _ _ _ _ H) as [(c & fs1 & H1 & H2)|(e & H1 & _)].
  - apply readFile_Ok in H1 as [-> _]. unfold writeFile in H2.
    destruct (fs !! p) as [[|d]|]; try destruct (isDir _ _);
      injection H2 as <- <-; try done; by rewrite lookup_insert_ne.
  - unfold readFile in H1. by destruct (fs !! p) as [[|d]|]; simplify_eq.
Qed.

(** C8, where the code departs from it.  The supplied URL
    [https://example.com/search?cur=$&q=1] holds [$&], which
    [String.prototype.replace] expands to the matched token: whatever
    surrounds the placeholder in [MainActivity.java], the file ends up
    with [...cur={{URL}}q=1] in its place and not with the URL that was
    supplied. *)
Theorem dollar_url_is_not_inserted (pre post : string) :
  JsString.firstAt "{{URL}}" (pre +:+ "{{URL}}" +:+ post) pre post →
  substituteMainActivity Scenario.dollarUrl (pre +:+ "{{URL}}" +:+ post)
  = pre +:+ "https://example.com/search?cur={{URL}}q=1" +:+ post
  ∧ substituteMainActivity Scenario.dollarUrl (pre +:+ "{{URL}}" +:+ post)
    ≠ pre +:+ Scenario.dollarUrl +:+ post.
Proof.
  intros H.
  assert (substituteMainActivity Scenario.dollarUrl (pre +:+ "{{URL}}" +:+ post)
          = pre +:+ "https://example.com/search?cur={{URL}}q=1" +:+ post) as E.
  { unfold substituteMainActivity. by rewrite (replace_firstAt _ _ _ _ _ H). }
  split; [done|]. rewrite E. intros E'%str_app_inv_head. discriminate E'.
Qed.

Lemma dollar_url_is_not_inserted_witness :
  substituteMainActivity Scenario.dollarUrl Scenario.templateMainActivity
  = "webView.loadUrl(https://example.com/search?cur={{URL}}q=1);".
Proof.
  apply (dollar_url_is_not_inserted "webView.loadUrl(" ");").
  apply (indexOf_Some "{{URL}}" Scenario.templateMainActivity 16). reflexivity.
Defined.

(** The same on the concrete installation: the request is answered with
    the [200] success response, and [MainActivity.java] of the workspace
    does not hold the URL of the request. *)
Example dollar_url_end_to_end :
  let r := generateApp Scenario.dir Scenario.gradleOk Scenario.unzip
             Scenario.ids Scenario.dollarRequest Scenario.disk in
  url Scenario.dollarRequest = Some "https://example.com/search?cur=$&q=1"
  ∧ isSuccess r.1 = true
  ∧ r.2 !! "/srv/app/temp/b-1/app/src/main/java/com/example/webview/MainActivity.java"
    = Some (File "webView.loadUrl(https://example.com/search?cur={{URL}}q=1);").
Proof. vm_compute. done. Qed.

(** C9.  The download handler looks at the plain join of the temp
    root, the request's [buildId] and the APK's relative path, whatever
    [buildId] is, and serves the file it finds there.  With [..] for
    [buildId] that path lies outside the temp root. *)
Theorem download_path_not_confined (dsegs : list string) :
  Forall (λ s, Path.nameSeg s = true) dsegs →
  let __dirname := Path.absolute dsegs in
  (∀ buildId fs content,
     fs !! Path.join [__dirname; "../temp"; buildId; apkRel] = Some (File content) →
     (download __dirname buildId true fs).1
     = Responded 200 (Attachment "app.apk" content))
  ∧ ∃ buildId,
      ".." ∈ Path.splitSlash buildId
      ∧ Path.under (tempRoot __dirname)
                   (Path.join [__dirname; "../temp"; buildId; apkRel]) = false.
Proof.
  intros Hd d. split.
  - intros buildId fs content H. unfold download, existsSync.
    by rewrite H, bool_decide_eq_true_2 by by eauto.
  - exists "..". split; [by apply list_elem_of_singleton|].
    by apply apkPath_escape_outside.
Qed.

Lemma download_path_not_confined_witness :
  (∀ buildId fs content,
     fs !! Path.join [Scenario.dir; "../temp"; buildId; apkRel] = Some (File content) →
     (download Scenario.dir buildId true fs).1
     = Responded 200 (Attachment "app.apk" content))
  ∧ ∃ buildId,
      ".." ∈ Path.splitSlash buildId
      ∧ Path.under (tempRoot Scenario.dir)
                   (Path.join [Scenario.dir; "../temp"; buildId; apkRel]) = false.
Proof.
  apply (download_path_not_confined Scenario.dirSegs). by_evaluation.
Defined.

(** On the concrete installation [GET /download/..] serves
    [/srv/app/app/build/outputs/apk/debug/app-debug.apk], a file that was
    never under [/srv/app/temp]. *)
Example download_dotdot_serves_outside_file :
  let fs := <["/srv/app/app/build/outputs/apk/debug/app-debug.apk" := File "other"]>
              Scenario.disk in
  (download Scenario.dir ".." true fs).1
  = Responded 200 (Attachment "app.apk" "other").
Proof. vm_compute. reflexivity. Qed.

(** C10.  Whenever [POST /generate-app] ends otherwise than with the
    [200] success answer (missing field, exception, failed build,
    missing APK, or the callback throwing), the handler has removed
    nothing: between the staging of the uploads and the end of the
    request the disk only went through calls that keep what is there,
    and through the build tool.  So when the build tool itself deletes
    nothing, all that was on the disk after the uploads were staged is
    still there, the staging directories of the icon and of the web
    content included. *)
Theorem failure_keeps_staging_directories
    (__dirname : string) (gradlew : string → FS → option string * FS)
    (unzip : string → option (list ZipEntry))
    (ids : Uuids) (req : Request) (fs fs1 fs' : FS) (files : Files)
    (out : Outcome) :
  stageUploads __dirname ids req fs = (Ok files, fs1) →
  generateApp __dirname gradlew unzip ids req fs = (out, fs') →
  isSuccess out = false →
  (∃ fs2, keeps fs1 fs2 ∧ (fs' = fs2 ∨ ∃ cwd, fs' = (gradlew cwd fs2).2))
  ∧ ((∀ cwd x, keeps x (gradlew cwd x).2) →
     keeps fs1 fs'
     ∧ (is_Some (icon req) →
        fs' !! stagingDir __dirname (iconUuid ids) = Some Dir)
     ∧ (is_Some (htmlFile req) →
        fs' !! stagingDir __dirname (htmlUuid ids) = Some Dir)).
Proof.
  intros Hst Hgen Hfail.
  assert (∃ fs2, keeps fs1 fs2 ∧ (fs' = fs2 ∨ ∃ cwd, fs' = (gradlew cwd fs2).2))
    as Hrun.
  { unfold generateApp in Hgen. rewrite Hst in Hgen. unfold handleGenerate in Hgen.
    destruct (missingField req).
    { injection Hgen as <- <-. exists fs1. split; [apply keeps_refl|by left]. }
    destruct (prepareBuild _ _ _ _ _ _) as [[buildDir|e] fs2] eqn:Hprep;
      pose proof (keeping_prepareBuild _ _ _ _ _ _ _ _ Hprep) as Hk2.
    2: { injection Hgen as <- <-. exists fs2. split; [done|by left]. }
    exists fs2. split; [done|]. right. exists buildDir.
    destruct (gradlew buildDir fs2) as [error fs3]. simpl.
    unfold execCallback in Hgen.
    destruct error; [by injection Hgen as <- <-|].
    destruct (existsSync _ _); [|by injection Hgen as <- <-].
    destruct (filesIcon files); [|by injection Hgen as <- <-].
    injection Hgen as <- <-. done. }
  split; [done|]. intros Htool.
  assert (keeps fs1 fs') as Hk.
  { destruct Hrun as (fs2 & Hk2 & [->|[cwd ->]]); [done|].
    eapply keeps_trans; [done|apply Htool]. }
  destruct (stageUploads_Ok _ _ _ _ _ _ Hst) as (_ & Hi & Hh).
  split; [exact Hk|split]; intros H; apply (proj2 (Hk _)); auto.
Qed.

Lemma failure_keeps_staging_directories_witness :
  let fs' := Scenario.built Scenario.gradleFails Scenario.fullRequest in
  keeps (Scenario.staged Scenario.fullRequest).2 fs'
  ∧ (is_Some (icon Scenario.fullRequest) →
     fs' !! stagingDir Scenario.dir (iconUuid Scenario.ids) = Some Dir)
  ∧ (is_Some (htmlFile Scenario.fullRequest) →
     fs' !! stagingDir Scenario.dir (htmlUuid Scenario.ids) = Some Dir).
Proof.
  apply (failure_keeps_staging_directories Scenario.dir Scenario.gradleFails
           Scenario.unzip Scenario.ids Scenario.fullRequest Scenario.disk
           (Scenario.staged Scenario.fullRequest).2
           (Scenario.built Scenario.gradleFails Scenario.fullRequest)
           (Scenario.filesOf Scenario.fullRequest)
           (Responded 500 (JsonError "Failed to build APK"))).
  - by_evaluation.
  - by_evaluation.
  - reflexivity.
  - intros cwd x. apply keeps_refl.
Defined.

(** On the concrete installation: the build fails and both staging
    directories are still there, with the uploads in them. *)
Example failed_build_leaves_uploads :
  let fs' := (generateApp Scenario.dir Scenario.gradleFails Scenario.unzip
                Scenario.ids Scenario.fullRequest Scenario.disk).2 in
  fs' !! "/srv/app/temp/u-icon" = Some Dir
  ∧ fs' !! "/srv/app/temp/u-icon/icon.png" = Some (File "PNG")
  ∧ fs' !! "/srv/app/temp/u-html" = Some Dir
  ∧ fs' !! "/srv/app/temp/u-html/page.html" = Some (File "<p>hi</p>").
Proof. vm_compute. done. Qed.

(** For comparison, the success branch: both staging directories are
    removed and the workspace holds the icon and the page. *)
Example successful_build_removes_uploads :
  let r := generateApp Scenario.dir Scenario.gradleOk Scenario.unzip
             Scenario.ids Scenario.fullRequest Scenario.disk in
  r.1 = Responded 200
          (JsonSuccess "/srv/app/temp/b-1/app/build/outputs/apk/debug/app-debug.apk"
                       "/download/b-1")
  ∧ r.2 !! "/srv/app/temp/u-icon" = None
  ∧ r.2 !! "/srv/app/temp/u-html" = None
  ∧ r.2 !! "/srv/app/temp/b-1/app/src/main/res/mipmap-xxxhdpi/ic_launcher.png"
    = Some (File "PNG")
  ∧ r.2 !! "/srv/app/temp/b-1/app/src/main/assets/web/index.html"
    = Some (File "<p>hi</p>").
Proof. vm_compute. done. Qed.

(* ===================================================================== *)
(** * Further properties of the handlers *)
(* ===================================================================== *)

(* ===================================================================== *)
(** ** More about paths: what lies below what *)
(* ===================================================================== *)

Section UnderFacts.

Lemma under_inv (d p : string) :
  Path.under d p = true → p = d ∨ ∃ r, p = d +:+ String Path.slash r.
Proof.
  unfold Path.under. intros [H|H]%orb_true_iff.
  - left. by apply bool_decide_eq_true_1 in H.
  - right. apply startsWith_inv in H as [r ->]. exists r.
    by rewrite str_app_assoc.
Qed.



(** A name followed by nothing or by a separator: the name is
    determined. *)
Lemma name_then_slash_inj (a b r r' : string) :
  Path.slashFree a = true → Path.slashFree b = true →
  (r = EmptyString ∨ ∃ t, r = String Path.slash t) →
  (r' = EmptyString ∨ ∃ t, r' = String Path.slash t) →
  a +:+ r = b +:+ r' → a = b.
Proof.
  revert b. induction a as [|c a IH]; intros [|d b] Ha Hb Hr Hr' E.
  - done.
  - exfalso. change (EmptyString +:+ r) with r in E. rewrite str_app_cons in E.
    simpl in Hb. destruct (decide (d = Path.slash)) as [->|Hd]; [done|].
    destruct Hr as [->|[t ->]]; [done|]. injection E as E _. by subst.
  - exfalso. change (EmptyString +:+ r') with r' in E. rewrite str_app_cons in E.
    simpl in Ha. destruct (decide (c = Path.slash)) as [->|Hc]; [done|].
    destruct Hr' as [->|[t ->]]; [done|]. injection E as E _. by subst.
  - rewrite !str_app_cons in E. injection E as -> E.
    simpl in Ha, Hb. destruct (decide (d = Path.slash)); [done|].
    f_equal. by eapply IH.
Qed.

(** Different names in one directory have nothing below both. *)
Lemma under_siblings (pre a b k : string) :
  Path.slashFree a = true → Path.slashFree b = true → a ≠ b →
  Path.under (pre +:+ a) k = true → Path.under (pre +:+ b) k = true → False.
Proof.
  intros Ha Hb Hab H1 H2.
  apply under_inv in H1. apply under_inv in H2.
  assert (∃ r, k = pre +:+ a +:+ r ∧ (r = EmptyString ∨ ∃ t, r = String Path.slash t))
    as (r1 & E1 & Hr1).
  { destruct H1 as [->|[r ->]].
    - exists EmptyString. rewrite !str_app_nil_r. eauto.
    - exists (String Path.slash r). rewrite str_app_assoc. eauto. }
  assert (∃ r, k = pre +:+ b +:+ r ∧ (r = EmptyString ∨ ∃ t, r = String Path.slash t))
    as (r2 & E2 & Hr2).
  { destruct H2 as [->|[r ->]].
    - exists EmptyString. rewrite !str_app_nil_r. eauto.
    - exists (String Path.slash r). rewrite str_app_assoc. eauto. }
  rewrite E1 in E2. apply str_app_inv_head in E2.
  apply Hab. exact (name_then_slash_inj a b r1 r2 Ha Hb Hr1 Hr2 E2).
Qed.





End UnderFacts.

(* ===================================================================== *)
(** ** Where the file system calls write *)
(* ===================================================================== *)

Section WriteFacts.
Import Fs.

Lemma sameFiles_refl (W : string → Prop) (fs : FS) : sameFilesOutside W fs fs.
Proof. by intros k c _. Qed.

Lemma sameFiles_trans (W : string → Prop) (fs1 fs2 fs3 : FS) :
  sameFilesOutside W fs1 fs2 → sameFilesOutside W fs2 fs3 →
  sameFilesOutside W fs1 fs3.
Proof. intros H1 H2 k c Hk. by rewrite (H1 k c Hk), (H2 k c Hk). Qed.

Lemma sameFiles_weaken (W W' : string → Prop) (fs fs' : FS) :
  (∀ k, W k → W' k) → sameFilesOutside W fs fs' → sameFilesOutside W' fs fs'.
Proof. intros HW H k c Hk. apply H. auto. Qed.

Lemma writesWithin_weaken {A} (W W' : string → Prop) (m : M A) :
  (∀ k, W k → W' k) → writesWithin W m → writesWithin W' m.
Proof. intros HW H fs r fs' E. eapply sameFiles_weaken; [done|by eapply H]. Qed.

Lemma writesWithin_ret {A} (W : string → Prop) (a : A) : writesWithin W (mret a).
Proof. intros fs r fs' [= <- <-]. apply sameFiles_refl. Qed.


Lemma writesWithin_bind {A B} (W : string → Prop) (m : M A) (f : A → M B) :
  writesWithin W m → (∀ a, writesWithin W (f a)) → writesWithin W (m ≫= f).
Proof.
  intros Hm Hf fs r fs' H.
  destruct (bind_Ok _ _ _ _ _ H) as [(a & fs1 & H1 & H2)|(e & H1 & _)].
  - eapply sameFiles_trans; [by eapply Hm|by eapply Hf].
  - by eapply Hm.
Qed.

(** [mkdir -p] creates, changes and replaces no regular file. *)
Lemma writesWithin_uncaught {A} (W : string → Prop) (m : M A) :
  writesWithin W m → writesWithin W (uncaught m).
Proof.
  intros Hm fs r fs' H. apply uncaught_disk in H as [r' H]. by eapply Hm.
Qed.

Lemma writesWithin_mkdirs (W : string → Prop) (p : string) :
  writesWithin W (mkdirs p).
Proof.
  intros fs [[]|e] fs' H k c _.
  - split; [by eapply mkdirs_Ok_file|by eapply mkdirs_Ok_file_back].
  - unfold mkdirs in H. destruct (existsb _ _); by simplify_eq.
Qed.


Lemma writesWithin_writeFile (p data : string) :
  writesWithin (λ k, k = p) (writeFile p data).
Proof.
  intros fs r fs' H k c Hk. unfold writeFile in H.
  destruct (fs !! p) as [[|d]|]; try destruct (isDir _ _);
    injection H as <- <-; try done; by rewrite lookup_insert_ne.
Qed.







End WriteFacts.

(* ===================================================================== *)
(** ** The workspace, the template and the staging directories *)
(* ===================================================================== *)

Section WorkspacePaths.
Import Server.

(** A path made of names, joined with a relative path made of names. *)
Lemma join_child (segs names : list string) :
  Forall (λ s, Path.nameSeg s = true) segs →
  Forall (λ s, Path.nameSeg s = true) names → names ≠ [] →
  Path.join [Path.absolute segs; Path.joinSlash names]
  = Path.absolute (segs ++ names).
Proof.
  intros Hs Hn Hne.
  assert (Forall (λ s, s ≠ EmptyString) names) as Hnn.
  { eapply Forall_impl; [done|]. apply nameSeg_nonempty. }
  rewrite join_nonempty; [|done|].
  2: { constructor; [done|]. constructor; [|done]. by apply joinSlash_nonempty. }
  change (Path.joinSlash [Path.absolute segs; Path.joinSlash names])
    with (Path.absolute segs +:+ String Path.slash (Path.joinSlash names)).
  rewrite (normalize_absolute _ _ (rev names ++ rev segs)).
  - by rewrite rev_app_distr, !rev_involutive.
  - done.
  - by apply endsWithSlash_names.
  - rewrite splitSlash_joinSlash; [|done|].
    + apply fold_normalizeStep_proper.
      eapply Forall_impl; [exact Hn|]. apply nameSeg_proper.
    + eapply Forall_impl; [exact Hn|]. apply nameSeg_slashFree.
  - intros E. apply app_eq_nil in E as [E _].
    apply (f_equal (@rev string)) in E. by rewrite rev_involutive in E.
Qed.

Lemma join_child_string (segs names : list string) :
  Forall (λ s, Path.nameSeg s = true) segs → segs ≠ [] →
  Forall (λ s, Path.nameSeg s = true) names → names ≠ [] →
  Path.join [Path.absolute segs; Path.joinSlash names]
  = Path.absolute segs +:+ String Path.slash (Path.joinSlash names).
Proof. intros. rewrite join_child by done. by apply absolute_app. Qed.

(** All the paths [absolute (P ++ l)] start alike. *)
Lemma absolute_prefix (P : list string) :
  ∃ pre, ∀ l, l ≠ [] →
    Path.absolute (P ++ l) = pre +:+ String Path.slash (Path.joinSlash l).
Proof.
  destruct P as [|x P].
  - exists EmptyString. by intros l _.
  - exists (Path.absolute (x :: P)). intros l Hl. by apply absolute_app.
Qed.

Variable dsegs : list string.
Hypothesis dsegs_names : Forall (λ s, Path.nameSeg s = true) dsegs.

Lemma parentSegs_names :
  Forall (λ s, Path.nameSeg s = true) (Path.parentSegs dsegs).
Proof using dsegs_names.
  unfold Path.parentSegs. apply Forall_rev.
  assert (Forall (λ s, Path.nameSeg s = true) (rev dsegs)) as H
    by by apply Forall_rev.
  by destruct H.
Qed.


(** The build directory and the staging directories are made of names. *)
Lemma workspace_names (uuid : string) :
  Path.nameSeg uuid = true →
  Forall (λ s, Path.nameSeg s = true) (Path.parentSegs dsegs ++ ["temp"; uuid]).
Proof using dsegs_names.
  intros Hu. apply Forall_app. split; [apply parentSegs_names|].
  by repeat constructor.
Qed.

(** A file of the workspace, given by its path relative to the build
    directory. *)
Lemma workspace_file (buildId : string) (names : list string) :
  Path.nameSeg buildId = true →
  Forall (λ s, Path.nameSeg s = true) names → names ≠ [] →
  Path.join [buildDirOf (Path.absolute dsegs) buildId; Path.joinSlash names]
  = buildDirOf (Path.absolute dsegs) buildId
    +:+ String Path.slash (Path.joinSlash names).
Proof using dsegs_names.
  intros Hb Hn Hne. rewrite buildDirOf_absolute by done.
  apply join_child_string; try done; [by apply workspace_names|].
  intros E. by apply app_eq_nil in E as [_ ?].
Qed.

(** Multer's [file.path]: the original name in the staging directory,
    whose directory is the staging directory again. *)
Lemma staged_path (uuid name : string) :
  Path.nameSeg uuid = true → Path.nameSeg name = true →
  Path.join [stagingDir (Path.absolute dsegs) uuid; name]
  = stagingDir (Path.absolute dsegs) uuid +:+ String Path.slash name
  ∧ Path.dirname (Path.join [stagingDir (Path.absolute dsegs) uuid; name])
    = stagingDir (Path.absolute dsegs) uuid.
Proof using dsegs_names.
  intros Hu Hn.
  assert (Path.join [stagingDir (Path.absolute dsegs) uuid; name]
          = stagingDir (Path.absolute dsegs) uuid +:+ String Path.slash name) as E.
  { apply (workspace_file uuid [name]); [done|by repeat constructor|done]. }
  split; [done|]. rewrite E. apply dirname_last.
  - change (stagingDir (Path.absolute dsegs) uuid)
      with (buildDirOf (Path.absolute dsegs) uuid).
    rewrite buildDirOf_absolute by done.
    destruct (absolute_prefix (Path.parentSegs dsegs)) as [pre Hpre].
    rewrite Hpre by done. rewrite str_app_length. simpl. lia.
  - by apply nameSeg_nonempty.
  - by apply nameSeg_slashFree.
Qed.

(** Nothing is below two different directories of the temp root. *)
Lemma workspaces_disjoint (a b k : string) :
  Path.nameSeg a = true → Path.nameSeg b = true → a ≠ b →
  Path.under (buildDirOf (Path.absolute dsegs) a) k = true →
  Path.under (buildDirOf (Path.absolute dsegs) b) k = true → False.
Proof using dsegs_names.
  intros Ha Hb Hab. rewrite !buildDirOf_absolute by done.
  destruct (absolute_prefix (Path.parentSegs dsegs)) as [pre Hpre].
  rewrite !Hpre by done.
  change (Path.joinSlash ["temp"; ?x]) with ("temp/" +:+ x).
  change (pre +:+ String Path.slash ("temp/" +:+ ?x))
    with (pre +:+ ("/temp/" +:+ x)).
  rewrite <- !str_app_assoc.
  apply under_siblings; auto using nameSeg_slashFree.
Qed.


End WorkspacePaths.

(* ===================================================================== *)
(** ** Where the handler writes *)
(* ===================================================================== *)

Section HandlerWrites.
Import Fs Server.



Lemma ancestorsFrom_under (acc s p : string) :
  p ∈ ancestorsFrom acc s → ∃ r, acc +:+ s = p +:+ String Path.slash r.
Proof.
  revert acc. induction s as [|c s IH]; intros acc; [by intros ?%elem_of_nil|].
  cbn [ancestorsFrom]. intros [H|H]%elem_of_app.
  - destruct (decide (c = Path.slash)) as [->|]; [|by apply elem_of_nil in H].
    destruct (decide (acc = EmptyString)); [by apply elem_of_nil in H|].
    apply list_elem_of_singleton in H as ->. eauto.
  - apply IH in H as [r H]. exists r. by rewrite <- H, str_app_assoc.
Qed.

(** The directories [mkdir -p] may create all hold its argument. *)
Lemma mkdirs_paths_under (p q : string) :
  q ∈ ancestors p ++ [p] → Path.under q p = true.
Proof.
  intros [H|H]%elem_of_app.
  - apply ancestorsFrom_under in H as [r H].
    change (EmptyString +:+ p) with p in H. rewrite H. apply under_child.
  - apply list_elem_of_singleton in H as ->. apply under_refl.
Qed.

Variable dsegs : list string.
Hypothesis dsegs_names : Forall (λ s, Path.nameSeg s = true) dsegs.
Variable unzip : string → option (list ZipEntry).
Variable buildId : string.
Hypothesis buildId_name : Path.nameSeg buildId = true.

(** A path of the workspace, written relative to the build directory,
    lies below the build directory. *)
Lemma workspace_file_under (names : list string) :
  Forall (λ s, Path.nameSeg s = true) names → names ≠ [] →
  Path.under (buildDirOf (Path.absolute dsegs) buildId)
    (Path.join [buildDirOf (Path.absolute dsegs) buildId; Path.joinSlash names])
  = true.
Proof using dsegs_names buildId_name.
  intros Hn Hne. rewrite workspace_file by done. apply under_child.
Qed.

(** The same one level further down, as for [assets/web/index.html]. *)
Lemma workspace_file2 (names names2 : list string) :
  Forall (λ s, Path.nameSeg s = true) names → names ≠ [] →
  Forall (λ s, Path.nameSeg s = true) names2 → names2 ≠ [] →
  Path.join [Path.join [buildDirOf (Path.absolute dsegs) buildId;
                        Path.joinSlash names]; Path.joinSlash names2]
  = buildDirOf (Path.absolute dsegs) buildId
    +:+ String Path.slash (Path.joinSlash (names ++ names2)).
Proof using dsegs_names buildId_name.
  intros Hn Hne Hn2 Hne2. rewrite buildDirOf_absolute by done.
  rewrite join_child; [|by apply workspace_names|done|done].
  rewrite join_child; [|apply Forall_app; split; [by apply workspace_names|done]
                       |done|done].
  rewrite <- List.app_assoc. apply absolute_app.
  - intros E. by apply app_eq_nil in E as [_ ?].
  - intros E. by apply app_eq_nil in E as [? _].
Qed.



End HandlerWrites.

Section Confinement.
Import Fs Server.

Variable dsegs : list string.
Hypothesis dsegs_names : Forall (λ s, Path.nameSeg s = true) dsegs.
Variable unzip : string → option (list ZipEntry).
Variable buildId : string.
Hypothesis buildId_name : Path.nameSeg buildId = true.

(** The fixed places of the workspace, as strings below the build
    directory. *)
Lemma workspace_places :
  let B := buildDirOf (Path.absolute dsegs) buildId in
  Path.join [B; manifestRel] = B +:+ "/app/src/main/AndroidManifest.xml"
  ∧ Path.join [B; gradleRel] = B +:+ "/app/build.gradle"
  ∧ Path.join [B; iconRel] = B +:+ "/app/src/main/res/mipmap-xxxhdpi/ic_launcher.png"
  ∧ Path.join [B; webRel] = B +:+ "/app/src/main/assets/web"
  ∧ Path.join [Path.join [B; webRel]; "index.html"]
    = B +:+ "/app/src/main/assets/web/index.html"
  ∧ Path.join [B; mainActivityRel]
    = B +:+ "/app/src/main/java/com/example/webview/MainActivity.java"
  ∧ Path.join [B; apkRel] = B +:+ "/app/build/outputs/apk/debug/app-debug.apk".
Proof using dsegs_names buildId_name.
  pose proof (workspace_file dsegs dsegs_names buildId) as H1.
  pose proof (workspace_file2 dsegs dsegs_names buildId buildId_name) as H2.
  intros B. repeat split.
  - apply (H1 ["app"; "src"; "main"; "AndroidManifest.xml"]);
      [done|by repeat constructor|done].
  - apply (H1 ["app"; "build.gradle"]); [done|by repeat constructor|done].
  - apply (H1 ["app"; "src"; "main"; "res"; "mipmap-xxxhdpi"; "ic_launcher.png"]);
      [done|by repeat constructor|done].
  - apply (H1 ["app"; "src"; "main"; "assets"; "web"]);
      [done|by repeat constructor|done].
  - apply (H2 ["app"; "src"; "main"; "assets"; "web"] ["index.html"]);
      [by repeat constructor|done|by repeat constructor|done].
  - apply (H1 ["app"; "src"; "main"; "java"; "com"; "example"; "webview";
               "MainActivity.java"]); [done|by repeat constructor|done].
  - apply (H1 ["app"; "build"; "outputs"; "apk"; "debug"; "app-debug.apk"]);
      [done|by repeat constructor|done].
Qed.





End Confinement.

(* ===================================================================== *)
(** ** What a request leaves alone *)
(* ===================================================================== *)

Section RequestFrame.
Import Fs Server.






Variable dsegs : list string.
Hypothesis dsegs_names : Forall (λ s, Path.nameSeg s = true) dsegs.

(** Multer writes one file, in the staging directory. *)
Lemma writesWithin_stageOpt (uuid : string) (u : option Upload) :
  Path.nameSeg uuid = true →
  (∀ up, u = Some up → Path.nameSeg (originalname up) = true) →
  writesWithin (λ k, Path.under (stagingDir (Path.absolute dsegs) uuid) k = true)
               (stageOpt (Path.absolute dsegs) uuid u).
Proof using dsegs_names.
  intros Hu Hn. destruct u as [up|]; [|apply writesWithin_ret].
  unfold stageOpt, stageFile. cbv zeta.
  apply writesWithin_bind; [|intros p; apply writesWithin_ret].
  apply writesWithin_bind;
    [apply writesWithin_uncaught, writesWithin_mkdirs|intros _].
  apply writesWithin_bind; [|intros _; apply writesWithin_ret].
  eapply writesWithin_weaken; [|apply writesWithin_writeFile].
  intros k ->.
  destruct (staged_path dsegs dsegs_names uuid (originalname up)) as [-> _];
    [done|by apply Hn|]. apply under_child.
Qed.

(** What multer hands to the handler. *)
Lemma stageOpt_path (uuid : string) (u : option Upload) (fs fs' : FS)
    (r : option string) :
  stageOpt (Path.absolute dsegs) uuid u fs = (Ok r, fs') →
  r = (λ up, Path.join [stagingDir (Path.absolute dsegs) uuid; originalname up]) <$> u
  ∧ ∀ up, u = Some up →
      fs' !! Path.join [stagingDir (Path.absolute dsegs) uuid; originalname up]
      = Some (File (bytes up)).
Proof.
  destruct u as [up|]; [|by intros [= <- <-]].
  unfold stageOpt, stageFile. cbv zeta. intros H.
  destruct (bind_Ok _ _ _ _ _ H) as [(a & fs1 & H1 & H2)|(e & _ & ?)]; [|done].
  injection H2 as <- <-.
  destruct (bind_Ok _ _ _ _ _ H1) as [([] & fs2 & H3 & H4)|(e & _ & ?)]; [|done].
  destruct (bind_Ok _ _ _ _ _ H4) as [([] & fs3 & H5 & H6)|(e & _ & ?)]; [|done].
  injection H6 as <- <-. apply writeFile_Ok in H5 as ->.
  split; [done|]. intros ? [= <-]. apply lookup_insert_eq.
Qed.

(** The directories the success branch removes are the staging
    directories. *)
Lemma staged_paths_dirname (ids : Uuids) (req : Request) (fs fs1 : FS)
    (files : Files) :
  Path.nameSeg (iconUuid ids) = true → Path.nameSeg (htmlUuid ids) = true →
  (∀ u, icon req = Some u → Path.nameSeg (originalname u) = true) →
  (∀ u, htmlFile req = Some u → Path.nameSeg (originalname u) = true) →
  stageUploads (Path.absolute dsegs) ids req fs = (Ok files, fs1) →
  (∀ p, filesIcon files = Some p →
        Path.dirname p = stagingDir (Path.absolute dsegs) (iconUuid ids))
  ∧ (∀ p, filesHtmlFile files = Some p →
        Path.dirname p = stagingDir (Path.absolute dsegs) (htmlUuid ids)).
Proof using dsegs_names.
  intros Hi Hh Hni Hnh H. unfold stageUploads in H.
  destruct (bind_Ok _ _ _ _ _ H) as [(i & fs2 & H1 & H2)|(e & _ & ?)]; [|done].
  destruct (bind_Ok _ _ _ _ _ H2) as [(h & fs3 & H3 & H4)|(e & _ & ?)]; [|done].
  injection H4 as <- <-.
  destruct (stageOpt_path _ _ _ _ _ H1) as [-> _].
  destruct (stageOpt_path _ _ _ _ _ H3) as [-> _].
  split; simpl; intros p Hp.
  - destruct (icon req) as [u|]; [|done]. injection Hp as <-.
    by apply staged_path; [| |apply Hni].
  - destruct (htmlFile req) as [u|]; [|done]. injection Hp as <-.
    by apply staged_path; [| |apply Hnh].
Qed.

(** What multer leaves for the handler: the paths in [req.files] and
    the uploaded bytes at those paths, the second upload not disturbing
    the first. *)
Lemma stageUploads_files (ids : Uuids) (req : Request) (fs fs1 : FS)
    (files : Files) :
  Path.nameSeg (iconUuid ids) = true → Path.nameSeg (htmlUuid ids) = true →
  iconUuid ids ≠ htmlUuid ids →
  (∀ u, icon req = Some u → Path.nameSeg (originalname u) = true) →
  (∀ u, htmlFile req = Some u → Path.nameSeg (originalname u) = true) →
  stageUploads (Path.absolute dsegs) ids req fs = (Ok files, fs1) →
  filesIcon files
  = (λ u, Path.join [stagingDir (Path.absolute dsegs) (iconUuid ids);
                     originalname u]) <$> icon req
  ∧ filesHtmlFile files
    = (λ u, Path.join [stagingDir (Path.absolute dsegs) (htmlUuid ids);
                       originalname u]) <$> htmlFile req
  ∧ (∀ u, icon req = Some u →
       fs1 !! Path.join [stagingDir (Path.absolute dsegs) (iconUuid ids);
                         originalname u] = Some (File (bytes u)))
  ∧ (∀ u, htmlFile req = Some u →
       fs1 !! Path.join [stagingDir (Path.absolute dsegs) (htmlUuid ids);
                         originalname u] = Some (File (bytes u))).
Proof using dsegs_names.
  intros Hi Hh Hne Hni Hnh H. unfold stageUploads in H.
  destruct (bind_Ok _ _ _ _ _ H) as [(i & fs2 & H1 & H2)|(e & _ & ?)]; [|done].
  destruct (bind_Ok _ _ _ _ _ H2) as [(h & fs3 & H3 & H4)|(e & _ & ?)]; [|done].
  injection H4 as <- <-.
  destruct (stageOpt_path _ _ _ _ _ H1) as [-> Hfi].
  destruct (stageOpt_path _ _ _ _ _ H3) as [-> Hfh].
  repeat split; try done.
  - intros u Hu.
    pose proof (writesWithin_stageOpt _ _ Hh Hnh _ _ _ H3) as Hw.
    apply (Hw _ (bytes u)); [|by apply Hfi].
    destruct (staged_path dsegs dsegs_names (iconUuid ids) (originalname u))
      as [E _]; [done|by apply Hni|].
    rewrite E. intros Hin.
    eapply (workspaces_disjoint dsegs dsegs_names (iconUuid ids) (htmlUuid ids));
      [done|done|done| |exact Hin].
    apply under_child.
Qed.

End RequestFrame.

(** X1.  Multer's staging can be read back: after the uploads of a
    request have been staged, each [file.path] is the upload's original
    name inside its own staging directory, the file there holds exactly
    the uploaded bytes (the second upload does not disturb the first),
    and [path.dirname(file.path)] is the staging directory. *)
Theorem staged_uploads_read_back
    (dsegs : list string) (ids : Uuids) (req : Request) (fs fs1 : FS)
    (files : Files) :
  Forall (λ s, Path.nameSeg s = true) dsegs →
  Path.nameSeg (iconUuid ids) = true → Path.nameSeg (htmlUuid ids) = true →
  iconUuid ids ≠ htmlUuid ids →
  (∀ u, icon req = Some u → Path.nameSeg (originalname u) = true) →
  (∀ u, htmlFile req = Some u → Path.nameSeg (originalname u) = true) →
  stageUploads (Path.absolute dsegs) ids req fs = (Ok files, fs1) →
  let staged uuid (u : Upload) :=
    Path.join [stagingDir (Path.absolute dsegs) uuid; originalname u] in
  filesIcon files = staged (iconUuid ids) <$> icon req
  ∧ filesHtmlFile files = staged (htmlUuid ids) <$> htmlFile req
  ∧ (∀ u, icon req = Some u →
       fs1 !! staged (iconUuid ids) u = Some (File (bytes u))
       ∧ Path.dirname (staged (iconUuid ids) u)
         = stagingDir (Path.absolute dsegs) (iconUuid ids))
  ∧ (∀ u, htmlFile req = Some u →
       fs1 !! staged (htmlUuid ids) u = Some (File (bytes u))
       ∧ Path.dirname (staged (htmlUuid ids) u)
         = stagingDir (Path.absolute dsegs) (htmlUuid ids)).
Proof.
  intros Hd Hi Hh Hne Hni Hnh H staged.
  destruct (stageUploads_files dsegs Hd ids req fs fs1 files Hi Hh Hne Hni Hnh H)
    as (Ei & Eh & Hfi & Hfh).
  repeat split; try done.
  - by apply Hfi.
  - by apply staged_path; [| |apply Hni].
  - by apply Hfh.
  - by apply staged_path; [| |apply Hnh].
Qed.

Lemma staged_uploads_read_back_witness :
  let staged uuid (u : Upload) :=
    Path.join [stagingDir Scenario.dir uuid; originalname u] in
  let fs1 := (Scenario.staged Scenario.fullRequest).2 in
  fs1 !! staged "u-icon" Scenario.pngIcon = Some (File "PNG")
  ∧ fs1 !! staged "u-html" Scenario.htmlPage = Some (File "<p>hi</p>").
Proof.
  intros staged fs1.
  destruct (staged_uploads_read_back Scenario.dirSegs Scenario.ids
              Scenario.fullRequest Scenario.disk fs1
              (Scenario.filesOf Scenario.fullRequest))
    as (_ & _ & Hi & Hh).
  - by_evaluation.
  - reflexivity.
  - reflexivity.
  - by_evaluation.
  - intros u [= <-]. reflexivity.
  - intros u [= <-]. reflexivity.
  - by_evaluation.
  - split; [by apply (Hi Scenario.pngIcon)|by apply (Hh Scenario.htmlPage)].
Defined.









(* ===================================================================== *)
(** ** What the preparation of a build puts into the workspace *)
(* ===================================================================== *)

Section Preparation.
Import Fs Server.

Variable dsegs : list string.
Hypothesis dsegs_names : Forall (λ s, Path.nameSeg s = true) dsegs.
Variable unzip : string → option (list ZipEntry).
Variable buildId : string.
Hypothesis buildId_name : Path.nameSeg buildId = true.







End Preparation.







(* ===================================================================== *)
(** ** The answers of [POST /generate-app] *)
(* ===================================================================== *)

Section Answers.

Lemma truthy_false (v : option string) :
  JsString.truthy v = false ↔ v = None ∨ v = Some EmptyString.
Proof. destruct v as [[|c s]|]; simpl; intuition (auto; congruence). Qed.

(** Line 41 in terms of the fields. *)
Lemma missingField_blank (req : Request) :
  missingField req = true
  ↔ (appName req = None ∨ appName req = Some EmptyString)
    ∨ (packageName req = None ∨ packageName req = Some EmptyString)
    ∨ (version req = None ∨ version req = Some EmptyString)
    ∨ (url req = None ∨ url req = Some EmptyString).
Proof.
  unfold missingField.
  rewrite !orb_true_iff, !negb_true_iff, !truthy_false. tauto.
Qed.

(** [fs.copy] of a source that is not there, or of a directory into
    itself, throws and leaves the disk as it is. *)
Lemma copy_throws (src dest : string) (fs : FS) :
  fs !! src = None ∨ (fs !! src = Some Dir ∧ Path.under src dest = true) →
  ∃ e, copy src dest fs = (Throw e, fs).
Proof.
  unfold copy. intros [->|[-> ->]]; eauto.
Qed.

(** [fs.ensureDirSync] changes no node that is there. *)
Lemma mkdirs_Ok_node (p k : string) (v : Node) (fs fs' : FS) :
  mkdirs p fs = (Ok (), fs') → fs !! k = Some v → fs' !! k = Some v.
Proof.
  intros H Hv. destruct v as [|c].
  - by apply (keeping_mkdirs _ _ _ _ H k).
  - by eapply mkdirs_Ok_file.
Qed.

(** What [req.files] holds, whatever the identifiers are. *)
Lemma stageUploads_shape (d : string) (ids : Uuids) (req : Request)
    (fs fs1 : FS) (files : Files) :
  stageUploads d ids req fs = (Ok files, fs1) →
  filesIcon files
  = (λ u, Path.join [stagingDir d (iconUuid ids); originalname u]) <$> icon req
  ∧ filesHtmlFile files
    = (λ u, Path.join [stagingDir d (htmlUuid ids); originalname u])
        <$> htmlFile req.
Proof.
  intros H. unfold stageUploads in H.
  destruct (bind_Ok _ _ _ _ _ H) as [(i & fs2 & H1 & H2)|(e & _ & ?)]; [|done].
  destruct (bind_Ok _ _ _ _ _ H2) as [(h & fs3 & H3 & H4)|(e & _ & ?)]; [|done].
  injection H4 as <- <-. simpl. split.
  - clear H3. destruct (icon req) as [u|]; [|by injection H1 as <- _].
    unfold stageOpt, stageFile in H1. cbv zeta in H1.
    destruct (bind_Ok _ _ _ _ _ H1) as [(a & fs4 & H5 & H6)|(e & _ & ?)]; [|done].
    injection H6 as <- <-.
    destruct (bind_Ok _ _ _ _ _ H5) as [([] & fs5 & H7 & H8)|(e & _ & ?)]; [|done].
    destruct (bind_Ok _ _ _ _ _ H8) as [([] & fs6 & H9 & H10)|(e & _ & ?)]; [|done].
    by injection H10 as <- <-.
  - clear H1. destruct (htmlFile req) as [u|]; [|by injection H3 as <- _].
    unfold stageOpt, stageFile in H3. cbv zeta in H3.
    destruct (bind_Ok _ _ _ _ _ H3) as [(a & fs4 & H5 & H6)|(e & _ & ?)]; [|done].
    injection H6 as <- <-.
    destruct (bind_Ok _ _ _ _ _ H5) as [([] & fs5 & H7 & H8)|(e & _ & ?)]; [|done].
    destruct (bind_Ok _ _ _ _ _ H8) as [([] & fs6 & H9 & H10)|(e & _ & ?)]; [|done].
    by injection H10 as <- <-.
Qed.

(** The disk after the success branch of the callback. *)
Lemma success_disk
    (dsegs : list string) (gradlew : string → FS → option string * FS)
    (unzip : string → option (list ZipEntry))
    (ids : Uuids) (req : Request) (fs fs1 fs2 fs3 : FS) (files : Files)
    (buildDir : string) (u : Upload) :
  Forall (λ s, Path.nameSeg s = true) dsegs →
  Path.nameSeg (iconUuid ids) = true → Path.nameSeg (htmlUuid ids) = true →
  (∀ u, icon req = Some u → Path.nameSeg (originalname u) = true) →
  (∀ u, htmlFile req = Some u → Path.nameSeg (originalname u) = true) →
  icon req = Some u →
  missingField req = false →
  stageUploads (Path.absolute dsegs) ids req fs = (Ok files, fs1) →
  prepareBuild (Path.absolute dsegs) unzip (buildUuid ids) req files fs1
  = (Ok buildDir, fs2) →
  gradlew buildDir fs2 = (None, fs3) →
  is_Some (fs3 !! Path.join [buildDir; apkRel]) →
  ∃ fs',
    generateApp (Path.absolute dsegs) gradlew unzip ids req fs
    = (Responded 200 (JsonSuccess (Path.join [buildDir; apkRel])
                                  ("/download/" +:+ buildUuid ids)), fs')
    ∧ ∀ p, fs' !! p
           = if Path.under (stagingDir (Path.absolute dsegs) (iconUuid ids)) p
                || bool_decide (is_Some (htmlFile req))
                   && Path.under (stagingDir (Path.absolute dsegs) (htmlUuid ids)) p
             then None else fs3 !! p.
Proof.
  intros Hd Hi Hh Hni Hnh Hu Hmiss Hst Hprep Hgr Hapk.
  destruct (stageUploads_shape _ _ _ _ _ _ Hst) as (Ei & Eh).
  destruct (staged_paths_dirname dsegs Hd ids req fs fs1 files
              Hi Hh Hni Hnh Hst) as (Di & Dh).
  unfold generateApp, handleGenerate, execCallback.
  rewrite Hst, Hmiss, Hprep, Hgr. unfold existsSync.
  rewrite bool_decide_eq_true_2 by done.
  rewrite Hu in Ei. simpl in Ei. rewrite Ei. rewrite (Di _ Ei).
  destruct (htmlFile req) as [h|]; simpl in Eh; rewrite Eh.
  - rewrite (Dh _ Eh). eexists. split; [done|]. intros p.
    rewrite !lookup_remove, bool_decide_eq_true_2 by by eauto.
    by destruct (Path.under _ p), (Path.under _ p).
  - eexists. split; [done|]. intros p.
    rewrite lookup_remove, bool_decide_eq_false_2 by by intros [? ?].
    by destruct (Path.under _ p).
Qed.

End Answers.

(** X8.  The answer is [400] exactly when one of the four text fields
    is [undefined] or the empty string: then it is [400] whatever else
    the request holds, and otherwise the request never ends with [400],
    however the preparation and the build go. *)
Theorem bad_request_exactly_for_blank_field
    (__dirname : string) (gradlew : string → FS → option string * FS)
    (unzip : string → option (list ZipEntry))
    (ids : Uuids) (req : Request) (fs fs1 : FS) (files : Files) :
  stageUploads __dirname ids req fs = (Ok files, fs1) →
  let blank (v : option string) := v = None ∨ v = Some EmptyString in
  (∃ body, (generateApp __dirname gradlew unzip ids req fs).1 = Responded 400 body)
  ↔ (blank (appName req) ∨ blank (packageName req)
     ∨ blank (version req) ∨ blank (url req)).
Proof.
  intros Hst blank. unfold blank. rewrite <- missingField_blank.
  unfold generateApp, handleGenerate. rewrite Hst.
  destruct (missingField req).
  { split; [done|]. intros _. by eexists. }
  split; [|done]. intros [body Hb]. exfalso. simpl in Hb.
  destruct (prepareBuild _ _ _ _ _ _) as [[bd|e] fs2]; [|done].
  destruct (gradlew bd fs2) as [[err|] fs3]; [done|].
  unfold execCallback in Hb.
  destruct (existsSync _ _); [|done].
  by destruct (filesIcon files).
Qed.

Lemma bad_request_exactly_for_blank_field_witness :
  let blank (v : option string) := v = None ∨ v = Some EmptyString in
  (∃ body, (generateApp Scenario.dir Scenario.gradleOk Scenario.unzip Scenario.ids
              Scenario.noNameRequest Scenario.disk).1 = Responded 400 body)
  ↔ (blank (appName Scenario.noNameRequest)
     ∨ blank (packageName Scenario.noNameRequest)
     ∨ blank (version Scenario.noNameRequest)
     ∨ blank (url Scenario.noNameRequest)).
Proof.
  apply (bad_request_exactly_for_blank_field Scenario.dir Scenario.gradleOk
           Scenario.unzip Scenario.ids Scenario.noNameRequest Scenario.disk
           (Scenario.staged Scenario.noNameRequest).2
           (Scenario.filesOf Scenario.noNameRequest)).
  by_evaluation.
Defined.

(** X9.  Without the template project the request fails before the
    build tool is run: when the template directory does not exist, a
    request with all four fields is answered with [500] and
    [Internal server error], whatever the build tool would have done,
    and the handler leaves behind the build directory it had created
    (everything that was on the disk is still there). *)
Theorem missing_template_is_internal_error
    (__dirname : string) (gradlew : string → FS → option string * FS)
    (unzip : string → option (list ZipEntry))
    (ids : Uuids) (req : Request) (fs fs1 fs2 : FS) (files : Files) :
  stageUploads __dirname ids req fs = (Ok files, fs1) →
  missingField req = false →
  fs1 !! templateDir __dirname = None →
  mkdirs (buildDirOf __dirname (buildUuid ids)) fs1 = (Ok (), fs2) →
  generateApp __dirname gradlew unzip ids req fs
  = (Responded 500 (JsonError "Internal server error"), fs2)
  ∧ fs2 !! buildDirOf __dirname (buildUuid ids) = Some Dir
  ∧ ∀ k v, fs1 !! k = Some v → fs2 !! k = Some v.
Proof.
  intros Hst Hmiss HT Hmk. split; [|split].
  - destruct (copy_throws (templateDir __dirname)
                (buildDirOf __dirname (buildUuid ids)) fs2) as [e He].
    { unfold mkdirs in Hmk. destruct (existsb _ _); [done|].
      injection Hmk as <-. rewrite lookup_mkdir_fold.
      destruct (decide _) as [Hin|]; [|by left; rewrite HT].
      right. split; [done|]. by apply mkdirs_paths_under. }
    unfold generateApp, handleGenerate, prepareBuild. rewrite Hst, Hmiss.
    cbv zeta. unfold mbind at 1, M_bind. rewrite Hmk.
    unfold mbind at 1, M_bind. by rewrite He.
  - by eapply mkdirs_Ok_self.
  - intros k v. by eapply mkdirs_Ok_node.
Qed.

Lemma missing_template_is_internal_error_witness :
  let bare : FS :=
    list_to_map [("/srv", Dir); ("/srv/app", Dir); ("/srv/app/src", Dir);
                 ("/srv/app/temp", Dir)] in
  generateApp Scenario.dir Scenario.gradleOk Scenario.unzip Scenario.ids
    (Scenario.fields "https://example.com/" None None) bare
  = (Responded 500 (JsonError "Internal server error"),
     <["/srv/app/temp/b-1" := Dir]> bare).
Proof.
  intros bare.
  apply (missing_template_is_internal_error Scenario.dir Scenario.gradleOk
           Scenario.unzip Scenario.ids
           (Scenario.fields "https://example.com/" None None) bare bare
           (<["/srv/app/temp/b-1" := Dir]> bare) (mkFiles None None)).
  - reflexivity.
  - reflexivity.
  - by_evaluation.
  - by_evaluation.
Defined.

(** X10.  The success branch removes the staging directories and
    nothing else: when the build tool has exited with status zero and
    the APK is in place, the request with an icon is answered with
    [200], and the disk it leaves is the one the build tool left without
    the staging directory of the icon and, when web content was
    uploaded, without the staging directory of the web content; every
    other path is as the build tool left it. *)
Theorem success_removes_exactly_staging
    (dsegs : list string) (gradlew : string → FS → option string * FS)
    (unzip : string → option (list ZipEntry))
    (ids : Uuids) (req : Request) (fs fs1 fs2 fs3 : FS) (files : Files)
    (buildDir : string) (u : Upload) :
  Forall (λ s, Path.nameSeg s = true) dsegs →
  Path.nameSeg (iconUuid ids) = true → Path.nameSeg (htmlUuid ids) = true →
  (∀ u, icon req = Some u → Path.nameSeg (originalname u) = true) →
  (∀ u, htmlFile req = Some u → Path.nameSeg (originalname u) = true) →
  icon req = Some u →
  missingField req = false →
  stageUploads (Path.absolute dsegs) ids req fs = (Ok files, fs1) →
  prepareBuild (Path.absolute dsegs) unzip (buildUuid ids) req files fs1
  = (Ok buildDir, fs2) →
  gradlew buildDir fs2 = (None, fs3) →
  is_Some (fs3 !! Path.join [buildDir; apkRel]) →
  let r := generateApp (Path.absolute dsegs) gradlew unzip ids req fs in
  isSuccess r.1 = true
  ∧ ∀ p, r.2 !! p
         = if Path.under (stagingDir (Path.absolute dsegs) (iconUuid ids)) p
              || bool_decide (is_Some (htmlFile req))
                 && Path.under (stagingDir (Path.absolute dsegs) (htmlUuid ids)) p
           then None else fs3 !! p.
Proof.
  intros Hd Hi Hh Hni Hnh Hu Hmiss Hst Hprep Hgr Hapk r.
  destruct (success_disk dsegs gradlew unzip ids req fs fs1 fs2 fs3 files
              buildDir u Hd Hi Hh Hni Hnh Hu Hmiss Hst Hprep Hgr Hapk)
    as (fs' & Hr & Hfs').
  unfold r. rewrite Hr. by split.
Qed.

Lemma success_removes_exactly_staging_witness :
  Scenario.afterBuild !! "/srv/app/temp/u-html/page.html" = None
  ∧ Scenario.afterBuild !! "/srv/app/temp/b-1/app/build.gradle"
    = Scenario.built Scenario.gradleOk Scenario.fullRequest
        !! "/srv/app/temp/b-1/app/build.gradle".
Proof.
  destruct (success_removes_exactly_staging Scenario.dirSegs Scenario.gradleOk
           Scenario.unzip Scenario.ids Scenario.fullRequest Scenario.disk
           (Scenario.staged Scenario.fullRequest).2
           (Scenario.prepared Scenario.fullRequest).2
           (Scenario.built Scenario.gradleOk Scenario.fullRequest)
           (Scenario.filesOf Scenario.fullRequest) Scenario.buildDir
           Scenario.pngIcon) as [_ H].
  - by_evaluation.
  - reflexivity.
  - reflexivity.
  - intros u [= <-]. reflexivity.
  - intros u [= <-]. reflexivity.
  - reflexivity.
  - reflexivity.
  - by_evaluation.
  - by_evaluation.
  - reflexivity.
  - by_evaluation.
  - split.
    + exact (H "/srv/app/temp/u-html/page.html").
    + exact (H "/srv/app/temp/b-1/app/build.gradle").
Defined.

(** X11.  What was built can be downloaded: when the build tool has
    left an APK with some content, the request with an icon is answered
    with [200] and the link [/download/<buildId>], and a [GET] of that
    link right afterwards finds the APK and streams that very content:
    the path the download route computes from the identifier is the
    path the build checked, and the cleanup of the staging directories
    has not touched it. *)
Theorem built_apk_can_be_downloaded
    (dsegs : list string) (gradlew : string → FS → option string * FS)
    (unzip : string → option (list ZipEntry))
    (ids : Uuids) (req : Request) (fs fs1 fs2 fs3 : FS) (files : Files)
    (buildDir content : string) (u : Upload) :
  Forall (λ s, Path.nameSeg s = true) dsegs →
  Path.nameSeg (iconUuid ids) = true → Path.nameSeg (htmlUuid ids) = true →
  Path.nameSeg (buildUuid ids) = true →
  buildUuid ids ≠ iconUuid ids → buildUuid ids ≠ htmlUuid ids →
  (∀ u, icon req = Some u → Path.nameSeg (originalname u) = true) →
  (∀ u, htmlFile req = Some u → Path.nameSeg (originalname u) = true) →
  icon req = Some u →
  missingField req = false →
  stageUploads (Path.absolute dsegs) ids req fs = (Ok files, fs1) →
  prepareBuild (Path.absolute dsegs) unzip (buildUuid ids) req files fs1
  = (Ok buildDir, fs2) →
  gradlew buildDir fs2 = (None, fs3) →
  fs3 !! Path.join [buildDir; apkRel] = Some (File content) →
  let r := generateApp (Path.absolute dsegs) gradlew unzip ids req fs in
  r.1 = Responded 200 (JsonSuccess (Path.join [buildDir; apkRel])
                                   ("/download/" +:+ buildUuid ids))
  ∧ (download (Path.absolute dsegs) (buildUuid ids) true r.2).1
    = Responded 200 (Attachment "app.apk" content).
Proof.
  intros Hd Hi Hh Hb Hbi Hbh Hni Hnh Hu Hmiss Hst Hprep Hgr Hapk r.
  destruct (success_disk dsegs gradlew unzip ids req fs fs1 fs2 fs3 files
              buildDir u Hd Hi Hh Hni Hnh Hu Hmiss Hst Hprep Hgr)
    as (fs' & Hr & Hfs'); [by eauto|].
  unfold r. rewrite Hr. split; [done|]. simpl.
  destruct (prepareBuild_Ok _ _ _ _ _ _ _ _ Hprep) as [-> _].
  destruct (workspace_places dsegs Hd (buildUuid ids) Hb)
    as (_ & _ & _ & _ & _ & _ & Ek).
  rewrite Ek in Hapk.
  unfold download. rewrite (apkPath_absolute dsegs Hd (buildUuid ids) Hb).
  change ("/app/build/outputs/apk/debug" +:+ "/app-debug.apk")
    with "/app/build/outputs/apk/debug/app-debug.apk".
  set (B := buildDirOf (Path.absolute dsegs) (buildUuid ids)) in *.
  assert (fs' !! (B +:+ "/app/build/outputs/apk/debug/app-debug.apk")
          = Some (File content)) as Hk.
  { rewrite Hfs', <- Hapk.
    assert (Path.under B (B +:+ "/app/build/outputs/apk/debug/app-debug.apk")
            = true) as HB by apply under_child.
    destruct (Path.under (stagingDir _ (iconUuid ids)) _) eqn:Ui.
    { exfalso.
      exact (workspaces_disjoint dsegs Hd (buildUuid ids) (iconUuid ids) _
               Hb Hi Hbi HB Ui). }
    destruct (Path.under (stagingDir _ (htmlUuid ids)) _) eqn:Uh.
    { exfalso.
      exact (workspaces_disjoint dsegs Hd (buildUuid ids) (htmlUuid ids) _
               Hb Hh Hbh HB Uh). }
    by rewrite andb_false_r. }
  unfold existsSync. rewrite Hk, bool_decide_eq_true_2 by by eauto. done.
Qed.

Lemma built_apk_can_be_downloaded_witness :
  let r := generateApp Scenario.dir Scenario.gradleOk Scenario.unzip
             Scenario.ids Scenario.zipRequest Scenario.disk in
  r.1 = Responded 200 (JsonSuccess (Path.join [Scenario.buildDir; apkRel])
                                   ("/download/" +:+ "b-1"))
  ∧ (download Scenario.dir "b-1" true r.2).1
    = Responded 200 (Attachment "app.apk" "APK").
Proof.
  apply (built_apk_can_be_downloaded Scenario.dirSegs Scenario.gradleOk
           Scenario.unzip Scenario.ids Scenario.zipRequest Scenario.disk
           (Scenario.staged Scenario.zipRequest).2
           (Scenario.prepared Scenario.zipRequest).2
           (Scenario.built Scenario.gradleOk Scenario.zipRequest)
           (Scenario.filesOf Scenario.zipRequest) Scenario.buildDir "APK"
           Scenario.pngIcon).
  - by_evaluation.
  - reflexivity.
  - reflexivity.
  - reflexivity.
  - done.
  - done.
  - intros u [= <-]. reflexivity.
  - intros u [= <-]. reflexivity.
  - reflexivity.
  - reflexivity.
  - by_evaluation.
  - by_evaluation.
  - reflexivity.
  - by_evaluation.
Defined.


